(** * The AI Blackbox API: task handlers, endpoints and worker, in Rocq

    A shallow embedding of [app/tasks.py], [app/main.py] and
    [app/celery_worker.py].  Python values are a small inductive type,
    every call that leaves the process (HTTP, the PDF library, the
    tokenizer, the embedding model, the vector store, the broker) is an
    oracle of an environment record that either returns or raises, and
    handlers and endpoints are programs of a state-and-exception monad
    over the world the process talks to.

    Conventions.  A [str] is a string of characters, equal to its UTF-8
    bytes; floats (vector components, scores) are rationals; the [print]
    calls, which only write to the console, are left out; an external
    call always comes back, with a value or with an exception. *)

From Stdlib Require Import ZArith QArith Qminmax Sorted Permutation.
From stdpp Require Import gmap strings list fin_maps pretty sorting.

Set Warnings "-register-all".

Local Open Scope string_scope.
Local Open Scope Z_scope.

(** ** Python values *)

(** The JSON-shaped fragment of Python's values: what [json.loads] and
    [response.json()] produce and what the handlers return.  Dicts keep
    their insertion order.  Floats are rationals. *)
Inductive value : Type :=
| VNone
| VBool (b : bool)
| VInt (n : Z)
| VFloat (q : Q)
| VStr (s : string)
| VList (l : list value)
| VDict (d : list (string * value)).

(** [d.get(k)] on the association list of a dict: first binding wins. *)
Fixpoint dict_get (k : string) (d : list (string * value)) : option value :=
  match d with
  | [] => None
  | (k', v) :: d' => if String.eqb k k' then Some v else dict_get k d'
  end.

(** [k in v] for a value that is a dict; [False] for every other value. *)
Definition has_key (k : string) (v : value) : Prop :=
  match v with
  | VDict d => is_Some (dict_get k d)
  | _ => False
  end.

Definition is_dict (v : value) : bool :=
  match v with VDict _ => true | _ => false end.

Definition is_str (v : value) : bool :=
  match v with VStr _ => true | _ => false end.

(** ** Exceptions *)

(** Everything the modelled calls raise derives from [Exception]; the
    only exception whose fields the program reads is FastAPI's
    [HTTPException]. *)
Inductive exn : Type :=
| Exception (cls : string) (msg : string)
| HTTPException (status_code : Z) (detail : string).

(** [str(e)] *)
Definition str_exn (e : exn) : string :=
  match e with
  | Exception _ msg => msg
  | HTTPException c d => pretty c +:+ ": " +:+ d
  end.

Inductive outcome (A : Type) : Type :=
| Return (a : A)
| Raise (e : exn).
Arguments Return {A} a.
Arguments Raise {A} e.

(** ** Python strings *)

Module PyStr.

Definition dquote : string := String (Ascii.ascii_of_nat 34) EmptyString.

Fixpoint find_from (sub s : string) (i : Z) : Z :=
  if String.prefix sub s then i
  else match s with
       | EmptyString => -1
       | String _ s' => find_from sub s' (i + 1)
       end.

(** [s.find(sub)]: lowest index of [sub] in [s], or [-1]. *)
Definition find (s sub : string) : Z := find_from sub s 0.

Fixpoint take (n : nat) (s : string) : string :=
  match n, s with
  | S n', String c s' => String c (take n' s')
  | _, _ => EmptyString
  end.

Fixpoint drop (n : nat) (s : string) : string :=
  match n, s with
  | S n', String _ s' => drop n' s'
  | _, _ => s
  end.

Definition len (s : string) : Z := Z.of_nat (String.length s).

(** Slice bounds as Python normalises them: a negative index counts
    from the end, and the result is clamped to [0, len]. *)
Definition clamp (s : string) (i : Z) : nat :=
  Z.to_nat (Z.min (len s) (if i <? 0 then Z.max 0 (len s + i) else i)).

(** [s[i:]] *)
Definition slice_from (s : string) (i : Z) : string := drop (clamp s i) s.

(** [s[:j]] *)
Definition slice_to (s : string) (j : Z) : string := take (clamp s j) s.

(** ["".join(parts)] *)
Definition join (parts : list string) : string :=
  fold_right String.append EmptyString parts.

End PyStr.

(** Subscripting [v[i]] with an integer, as [list], [str] and [dict] do
    it.  A dict built from JSON has string keys only, so an integer key
    is never present. *)
Definition subscript_int (v : value) (i : Z) : outcome value :=
  match v with
  | VList l =>
      let n := Z.of_nat (length l) in
      let j := if i <? 0 then n + i else i in
      if (0 <=? j) && (j <? n)
      then match l !! Z.to_nat j with
           | Some x => Return x
           | None => Raise (Exception "IndexError" "list index out of range")
           end
      else Raise (Exception "IndexError" "list index out of range")
  | VStr s =>
      let n := PyStr.len s in
      let j := if i <? 0 then n + i else i in
      if (0 <=? j) && (j <? n)
      then Return (VStr (PyStr.take 1 (PyStr.drop (Z.to_nat j) s)))
      else Raise (Exception "IndexError" "string index out of range")
  | VDict _ => Raise (Exception "KeyError" (pretty i))
  | _ => Raise (Exception "TypeError" "object is not subscriptable")
  end.

(** Subscripting [v[k]] with a string key. *)
Definition subscript_str (v : value) (k : string) : outcome value :=
  match v with
  | VDict d =>
      match dict_get k d with
      | Some x => Return x
      | None => Raise (Exception "KeyError" k)
      end
  | VList _ => Raise (Exception "TypeError" "list indices must be integers or slices, not str")
  | VStr _ => Raise (Exception "TypeError" "string indices must be integers, not 'str'")
  | _ => Raise (Exception "TypeError" "object is not subscriptable")
  end.

(** ** The world outside the process *)

(** [requests.Response], as far as the program reads it. *)
Record Response : Type := {
  status_code : Z;
  content : string;
  json : outcome value
}.

(** One outbound HTTP call as it was issued. *)
Record NetCall : Type := {
  call_method : string;
  call_url : string;
  call_timeout : option Z
}.

Inductive Distance : Type := COSINE | EUCLID | DOT | MANHATTAN.

Record VectorParams : Type := {
  vp_size : Z;
  vp_distance : Distance
}.

Record PointStruct : Type := {
  point_id : string;
  vector : list Q;
  payload : list (string * value)
}.

Record ScoredPoint : Type := {
  hit_id : string;
  score : Q
}.

Record Collection : Type := {
  vectors_config : VectorParams;
  points : gmap string PointStruct
}.

(** The pydantic models of [tasks.py]. *)
Record WorkExperience : Type := {
  title : string;
  company : string;
  duration : string
}.

Record Education : Type := {
  degree : string;
  institution : string
}.

Record ResumeDetails : Type := {
  skills : list string;
  work_experience : list WorkExperience;
  education : list Education
}.

Inductive TaskState : Type := PENDING | STARTED | SUCCESS | FAILURE.

Record TaskRecord : Type := {
  state : TaskState;
  result : option value;
  error : option string
}.

Record Invocation : Type := {
  task_id : string;
  task_name : string;
  arguments : list string
}.

Inductive qdrant_op : Type :=
| OpRecreate (collection_name : string)
| OpUpsert (collection_name : string) (pid : string)
| OpSearch (collection_name : string).

(** What the external services answer.  Each oracle returns or raises;
    the theorems quantify over every environment. *)
Record Env : Type := {
  env_get : string -> outcome Response;
  env_post : string -> list (string * string) -> value -> outcome Response;
  env_fitz_open : string -> outcome (list (outcome string));
  env_apply_chat_template : value -> outcome string;
  env_json_loads : string -> outcome value;
  env_model_dump_json : ResumeDetails -> string;
  env_encode : string -> outcome (list Q);
  env_similarity : Distance -> list Q -> list Q -> Q;
  env_qdrant_fault : qdrant_op -> option exn;
  env_broker_fault : string -> option exn;
  env_uuid4 : nat -> string;
  env_HUGGING_FACE_TOKEN : option string
}.

(** Everything a handler or an endpoint can change: the vector store,
    upserts the store has accepted but not yet applied, the HTTP calls
    issued so far, the broker queue, the result backend, and the number
    of task ids handed out. *)
Record World : Type := {
  collections : gmap string Collection;
  unapplied : list (string * PointStruct);
  calls : list NetCall;
  queue : list Invocation;
  results : gmap string TaskRecord;
  issued : nat
}.

Definition set_collections (f : gmap string Collection -> gmap string Collection) (w : World) : World :=
  {| collections := f (collections w); unapplied := unapplied w; calls := calls w;
     queue := queue w; results := results w; issued := issued w |}.

Definition set_unapplied (f : list (string * PointStruct) -> list (string * PointStruct)) (w : World) : World :=
  {| collections := collections w; unapplied := f (unapplied w); calls := calls w;
     queue := queue w; results := results w; issued := issued w |}.

Definition set_calls (f : list NetCall -> list NetCall) (w : World) : World :=
  {| collections := collections w; unapplied := unapplied w; calls := f (calls w);
     queue := queue w; results := results w; issued := issued w |}.

Definition set_queue (f : list Invocation -> list Invocation) (w : World) : World :=
  {| collections := collections w; unapplied := unapplied w; calls := calls w;
     queue := f (queue w); results := results w; issued := issued w |}.

Definition set_results (f : gmap string TaskRecord -> gmap string TaskRecord) (w : World) : World :=
  {| collections := collections w; unapplied := unapplied w; calls := calls w;
     queue := queue w; results := f (results w); issued := issued w |}.

Definition set_issued (f : nat -> nat) (w : World) : World :=
  {| collections := collections w; unapplied := unapplied w; calls := calls w;
     queue := queue w; results := results w; issued := f (issued w) |}.

(** ** The monad of handlers and endpoints *)

Definition M (A : Type) : Type := World -> World * outcome A.

Definition ret {A} (a : A) : M A := fun w => (w, Return a).

Definition raise {A} (e : exn) : M A := fun w => (w, Raise e).

Definition bind {A B} (m : M A) (k : A -> M B) : M B :=
  fun w => match m w with
           | (w', Return a) => k a w'
           | (w', Raise e) => (w', Raise e)
           end.

(** [try: m  except Exception as e: h e].  What [m] did before it
    raised is not undone. *)
Definition try_except {A} (m : M A) (h : exn -> M A) : M A :=
  fun w => match m w with
           | (w', Return a) => (w', Return a)
           | (w', Raise e) => h e w'
           end.

Definition lift {A} (o : outcome A) : M A := fun w => (w, o).

Definition modify (f : World -> World) : M unit := fun w => (f w, Return tt).

Definition get_world : M World := fun w => (w, Return w).

Declare Scope py_scope.
Delimit Scope py_scope with py.
Notation "x <- m ;; k" := (bind m (fun x => k))
  (at level 100, m at next level, right associativity) : py_scope.
Notation "m ;; k" := (bind m (fun _ => k))
  (at level 100, right associativity) : py_scope.
Local Open Scope py_scope.

(** ** [requests] *)

Module requests.

(** [requests.get(url)] / [requests.get(url, timeout=t)] *)
Definition get (env : Env) (url : string) (timeout : option Z) : M Response :=
  modify (set_calls (fun cs => (cs ++ [{| call_method := "GET"; call_url := url;
                                          call_timeout := timeout |}])%list)) ;;
  lift (env_get env url).

(** [requests.post(url, headers=h, json=j, timeout=t)] *)
Definition post (env : Env) (url : string) (headers : list (string * string))
    (body : value) (timeout : option Z) : M Response :=
  modify (set_calls (fun cs => (cs ++ [{| call_method := "POST"; call_url := url;
                                          call_timeout := timeout |}])%list)) ;;
  lift (env_post env url headers body).

(** [response.raise_for_status()]: [HTTPError] on a 4xx or 5xx status
    (the text of the error is shortened to the status). *)
Definition raise_for_status (r : Response) : M unit :=
  if (400 <=? status_code r) && (status_code r <? 600)
  then raise (Exception "HTTPError" (pretty (status_code r) +:+ " Error"))
  else ret tt.

End requests.

(** ** The vector store *)

Module Qdrant.

Definition dim (v : list Q) : Z := Z.of_nat (length v).

Definition fault (env : Env) (op : qdrant_op) : M unit :=
  match env_qdrant_fault env op with
  | Some e => raise e
  | None => ret tt
  end.

(** Modelled from the spec: the vector database is an external
    collaborator (section 1: upsert-by-id and nearest-neighbour search
    over named collections).  Recreating a collection drops it and
    creates it empty with the given configuration. *)
Definition recreate_collection (env : Env) (collection_name : string)
    (cfg : VectorParams) : M unit :=
  fault env (OpRecreate collection_name) ;;
  modify (set_collections
            (fun cs => <[collection_name := {| vectors_config := cfg; points := ∅ |}]>
                         (delete collection_name cs))).

Definition put_point (p : PointStruct) (c : Collection) : Collection :=
  {| vectors_config := vectors_config c; points := <[point_id p := p]> (points c) |}.

(** Modelled from the spec: upsert-by-id of one point into a named
    collection.  The store refuses an unknown collection and a vector
    of the wrong dimension.  With [wait] the point is stored when the
    call returns; without it the store only accepts the operation and
    applies it later. *)
Definition upsert (env : Env) (collection_name : string) (p : PointStruct)
    (wait : bool) : M unit :=
  fault env (OpUpsert collection_name (point_id p)) ;;
  w <- get_world ;;
  match collections w !! collection_name with
  | None => raise (Exception "UnexpectedResponse" "Not found: Collection doesn't exist")
  | Some c =>
      if negb (dim (vector p) =? vp_size (vectors_config c))
      then raise (Exception "UnexpectedResponse" "Wrong input: Vector dimension error")
      else if wait
           then modify (set_collections (fun cs => <[collection_name := put_point p c]> cs))
           else modify (set_unapplied (fun ops => (ops ++ [(collection_name, p)])%list))
  end.

(** Hits are ranked by descending score. *)
Definition ranks_before (a b : ScoredPoint) : Prop := (score b <= score a)%Q.

#[export] Instance ranks_before_dec : RelDecision ranks_before.
Proof. intros a b. unfold ranks_before, Qle. apply Z.le_dec. Defined.

Definition score_point (env : Env) (d : Distance) (query : list Q) (p : PointStruct)
  : ScoredPoint :=
  {| hit_id := point_id p; score := env_similarity env d query (vector p) |}.

Definition top (env : Env) (c : Collection) (query : list Q) (limit : Z)
  : list ScoredPoint :=
  take (Z.to_nat limit)
       (merge_sort ranks_before
          (score_point env (vp_distance (vectors_config c)) query
             <$> (snd <$> map_to_list (points c)))).

(** Modelled from the spec: nearest-neighbour search, the top [limit]
    matches ordered by descending score.  The store refuses an unknown
    collection, a query vector of the wrong dimension and a limit
    below one. *)
Definition search (env : Env) (collection_name : string) (query_vector : list Q)
    (limit : Z) : M (list ScoredPoint) :=
  fault env (OpSearch collection_name) ;;
  w <- get_world ;;
  match collections w !! collection_name with
  | None => raise (Exception "UnexpectedResponse" "Not found: Collection doesn't exist")
  | Some c =>
      if negb (dim query_vector =? vp_size (vectors_config c))
      then raise (Exception "UnexpectedResponse" "Wrong input: Vector dimension error")
      else if limit <? 1
           then raise (Exception "UnexpectedResponse" "Validation error: limit")
           else ret (top env c query_vector limit)
  end.

End Qdrant.

(** ** [hashlib.sha1] and [uuid.uuid5] *)

Module SHA1.

(** 32-bit words are [Z] reduced modulo 2^32. *)
Definition wrap (x : Z) : Z := x mod 2 ^ 32.

Definition add32 (a b : Z) : Z := wrap (a + b).

Definition rotl (n x : Z) : Z :=
  wrap (Z.lor (Z.shiftl x n) (Z.shiftr x (32 - n))).

Definition not32 (x : Z) : Z := Z.lxor x 0xFFFFFFFF.

(** The [n] low bytes of [x], most significant first. *)
Fixpoint be_bytes (n : nat) (x : Z) : list Z :=
  match n with
  | O => []
  | S n' => (be_bytes n' (Z.shiftr x 8) ++ [Z.land x 0xFF])%list
  end.

Definition be_int (bs : list Z) : Z :=
  fold_left (fun acc b => Z.lor (Z.shiftl acc 8) b) bs 0.

Definition pad (msg : list Z) : list Z :=
  let l := Z.of_nat (length msg) in
  (msg ++ [0x80] ++ repeat 0 (Z.to_nat ((55 - l) mod 64)) ++ be_bytes 8 (8 * l))%list.

Fixpoint chunks (n k : nat) (l : list Z) : list (list Z) :=
  match n with
  | O => []
  | S n' => take k l :: chunks n' k (drop k l)
  end.

(** The message schedule, latest word first. *)
Fixpoint extend (n : nat) (rev_w : list Z) : list Z :=
  match n with
  | O => rev_w
  | S n' =>
      let x := Z.lxor (Z.lxor (nth 2 rev_w 0) (nth 7 rev_w 0))
                      (Z.lxor (nth 13 rev_w 0) (nth 15 rev_w 0)) in
      extend n' (rotl 1 x :: rev_w)
  end.

Definition schedule (block : list Z) : list Z :=
  rev (extend 64 (rev (be_int <$> chunks 16 4 block))).

Definition round_fk (i : Z) (b c d : Z) : Z * Z :=
  if i <? 20 then (Z.lor (Z.land b c) (Z.land (not32 b) d), 0x5A827999)
  else if i <? 40 then (Z.lxor (Z.lxor b c) d, 0x6ED9EBA1)
  else if i <? 60 then (Z.lor (Z.lor (Z.land b c) (Z.land b d)) (Z.land c d), 0x8F1BBCDC)
  else (Z.lxor (Z.lxor b c) d, 0xCA62C1D6).

Definition hstate : Type := Z * Z * Z * Z * Z.

Definition round (st : Z * hstate) (w : Z) : Z * hstate :=
  let '(i, (a, b, c, d, e)) := st in
  let '(f, k) := round_fk i b c d in
  let temp := add32 (add32 (add32 (add32 (rotl 5 a) f) e) k) w in
  (i + 1, (temp, a, rotl 30 b, c, d)).

Definition compress (h : hstate) (block : list Z) : hstate :=
  let '(h0, h1, h2, h3, h4) := h in
  let '(_, (a, b, c, d, e)) := fold_left round (schedule block) (0, h) in
  (add32 h0 a, add32 h1 b, add32 h2 c, add32 h3 d, add32 h4 e).

Definition init : hstate :=
  (0x67452301, 0xEFCDAB89, 0x98BADCFE, 0x10325476, 0xC3D2E1F0).

(** [sha1(msg).digest()], as 20 bytes. *)
Definition digest (msg : list Z) : list Z :=
  let p := pad msg in
  let '(h0, h1, h2, h3, h4) :=
    fold_left compress (chunks (Nat.div (length p) 64) 64 p) init in
  (be_bytes 4 h0 ++ be_bytes 4 h1 ++ be_bytes 4 h2 ++ be_bytes 4 h3 ++ be_bytes 4 h4)%list.

End SHA1.

Module uuid.

(** [bytes(name, "utf-8")]: a string is its UTF-8 bytes. *)
Definition bytes_of (s : string) : list Z :=
  (fun c => Z.of_nat (Ascii.nat_of_ascii c)) <$> String.list_ascii_of_string s.

(** [UUID(bytes=b, version=v).int] *)
Definition UUID (b : list Z) (version : Z) : Z :=
  let i := SHA1.be_int b in
  let i := Z.land i (Z.lnot (Z.shiftl 0xc000 48)) in
  let i := Z.lor i (Z.shiftl 0x8000 48) in
  let i := Z.land i (Z.lnot (Z.shiftl 0xf000 64)) in
  Z.lor i (Z.shiftl version 76).

Definition hex_digit (n : Z) : Ascii.ascii :=
  Ascii.ascii_of_nat (Z.to_nat (if n <? 10 then 48 + n else 87 + n)).

(** ['%032x' % i] *)
Fixpoint hex (n : nat) (i : Z) : string :=
  match n with
  | O => EmptyString
  | S n' => hex n' (Z.shiftr i 4) +:+ String (hex_digit (Z.land i 0xF)) EmptyString
  end.

(** [str(u)] *)
Definition str (i : Z) : string :=
  let h := hex 32 i in
  PyStr.take 8 h +:+ "-" +:+ PyStr.take 4 (PyStr.drop 8 h) +:+ "-" +:+
  PyStr.take 4 (PyStr.drop 12 h) +:+ "-" +:+ PyStr.take 4 (PyStr.drop 16 h) +:+ "-" +:+
  PyStr.drop 20 h.

Definition NAMESPACE_DNS : list Z :=
  SHA1.be_bytes 16 0x6ba7b8109dad11d180b400c04fd430c8.

(** [uuid.uuid5(namespace, name)] *)
Definition uuid5 (namespace : list Z) (name : string) : Z :=
  UUID (take 16 (SHA1.digest (namespace ++ bytes_of name)%list)) 5.

End uuid.

(** ** [app/tasks.py] *)

Module tasks.

Definition HF_API_URL : string :=
  "https://api-inference.huggingface.co/models/mistralai/Mistral-7B-Instruct-v0.3".

(** [{"Authorization": f"Bearer {HF_TOKEN}"}] *)
Definition hf_headers (env : Env) : list (string * string) :=
  [("Authorization",
    "Bearer " +:+ match env_HUGGING_FACE_TOKEN env with
                  | Some t => t
                  | None => "None"
                  end)].

Definition collection_params : VectorParams :=
  {| vp_size := 384; vp_distance := COSINE |}.

(** The [try] block that runs when the module is imported. *)
Definition setup_collections (env : Env) : M unit :=
  try_except
    (Qdrant.recreate_collection env "jobs" collection_params ;;
     Qdrant.recreate_collection env "profiles" collection_params)
    (fun _ => ret tt).

(** *** Validation of the pydantic models *)

Definition obind {A B} (o : outcome A) (k : A -> outcome B) : outcome B :=
  match o with
  | Return a => k a
  | Raise e => Raise e
  end.

Definition for_each {A B} (f : A -> outcome B) : list A -> outcome (list B) :=
  fix go (l : list A) : outcome (list B) :=
    match l with
    | [] => Return []
    | x :: l' => obind (f x) (fun y => obind (go l') (fun ys => Return (y :: ys)))
    end.

Definition ValidationError (what : string) : exn :=
  Exception "ValidationError" ("validation error for ResumeDetails: " +:+ what).

Definition field (k : string) (d : list (string * value)) : outcome value :=
  match dict_get k d with
  | Some v => Return v
  | None => Raise (ValidationError (k +:+ ": Field required"))
  end.

Definition as_str (v : value) : outcome string :=
  match v with
  | VStr s => Return s
  | _ => Raise (ValidationError "Input should be a valid string")
  end.

Definition as_list {B} (f : value -> outcome B) (v : value) : outcome (list B) :=
  match v with
  | VList l => for_each f l
  | _ => Raise (ValidationError "Input should be a valid list")
  end.

Definition as_WorkExperience (v : value) : outcome WorkExperience :=
  match v with
  | VDict d =>
      obind (obind (field "title" d) as_str) (fun t =>
      obind (obind (field "company" d) as_str) (fun c =>
      obind (obind (field "duration" d) as_str) (fun du =>
      Return {| title := t; company := c; duration := du |})))
  | _ => Raise (ValidationError "Input should be a valid dictionary")
  end.

Definition as_Education (v : value) : outcome Education :=
  match v with
  | VDict d =>
      obind (obind (field "degree" d) as_str) (fun dg =>
      obind (obind (field "institution" d) as_str) (fun i =>
      Return {| degree := dg; institution := i |}))
  | _ => Raise (ValidationError "Input should be a valid dictionary")
  end.

(** The constructor call [ResumeDetails] on the unpacked [arguments]. *)
Definition make_ResumeDetails (arguments : value) : outcome ResumeDetails :=
  match arguments with
  | VDict d =>
      obind (obind (field "skills" d) (as_list as_str)) (fun sk =>
      obind (obind (field "work_experience" d) (as_list as_WorkExperience)) (fun we =>
      obind (obind (field "education" d) (as_list as_Education)) (fun ed =>
      Return {| skills := sk; work_experience := we; education := ed |})))
  | _ => Raise (Exception "TypeError" "argument after ** must be a mapping")
  end.

(** *** The resume-parsing task *)

Definition newline : string := String (Ascii.ascii_of_nat 10) EmptyString.

(** The search string: an opening brace, the word name in double
    quotes, a colon. *)
Definition name_marker : string :=
  "{" +:+ PyStr.dquote +:+ "name" +:+ PyStr.dquote +:+ ":".

(** [raw_output.find(sub)]; only a [str] has the method. *)
Definition find_in (raw_output : value) (sub : string) : outcome Z :=
  match raw_output with
  | VStr s => Return (PyStr.find s sub)
  | _ => Raise (Exception "AttributeError" "object has no attribute 'find'")
  end.

(** [raw_output[i:]] *)
Definition tail_of (raw_output : value) (i : Z) : outcome string :=
  match raw_output with
  | VStr s => Return (PyStr.slice_from s i)
  | _ => Raise (Exception "TypeError" "object is not subscriptable")
  end.

Definition not_found : value :=
  VDict [("error", VStr "Function call JSON not found in model output.")].

(** The body of the inner [try]: step 4, extracting the function call. *)
Definition extract_function_call (env : Env) (raw_output : value) : M value :=
  json_str_start <- lift (find_in raw_output name_marker) ;;
  if negb (json_str_start =? -1)
  then
    tail <- lift (tail_of raw_output json_str_start) ;;
    tool_call_json <- lift (env_json_loads env tail) ;;
    call <- lift (subscript_int tool_call_json 0) ;;
    arguments <- lift (subscript_str call "arguments") ;;
    final_details <- lift (make_ResumeDetails arguments) ;;
    ret (VStr (env_model_dump_json env final_details))
  else
    ret not_found.

(** The download and text extraction at the head of the outer [try]. *)
Definition fetch_resume_text (env : Env) (resume_url : string) : M string :=
  response <- requests.get env resume_url None ;;
  requests.raise_for_status response ;;
  pdf_document <- lift (env_fitz_open env (content response)) ;;
  pages <- lift (for_each (fun page => page) pdf_document) ;;
  ret (PyStr.join pages).

(** Steps 1 to 3: the prompt and the call of the inference API. *)
Definition raw_llm_output (env : Env) (resume_text : string) : M value :=
  let messages :=
    VList [VDict [("role", VStr "user");
                  ("content", VStr ("Extract the details from this resume text:"
                                    +:+ newline +:+ newline
                                    +:+ PyStr.slice_to resume_text 4000))]] in
  prompt <- lift (env_apply_chat_template env messages) ;;
  let api_payload :=
    VDict [("inputs", VStr prompt);
           ("parameters", VDict [("return_full_text", VBool false)])] in
  hf_response <- requests.post env HF_API_URL (hf_headers env) api_payload (Some 90) ;;
  requests.raise_for_status hf_response ;;
  generations <- lift (json hf_response) ;;
  generation <- lift (subscript_int generations 0) ;;
  lift (subscript_str generation "generated_text").

Definition failed_to_parse (raw_output : value) : value :=
  VDict [("error", VStr "Failed to parse model output."); ("raw_output", raw_output)].

(** The body of the outer [try]. *)
Definition parse_resume_body (env : Env) (resume_url : string) : M value :=
  resume_text <- fetch_resume_text env resume_url ;;
  raw_output <- raw_llm_output env resume_text ;;
  try_except
    (extract_function_call env raw_output)
    (fun _ => ret (failed_to_parse raw_output)).

(** [{"error": str(e)}] *)
Definition error_dict (e : exn) : value := VDict [("error", VStr (str_exn e))].

Definition parse_resume_task (env : Env) (resume_url : string) : M value :=
  try_except
    (parse_resume_body env resume_url)
    (fun e => ret (error_dict e)).

(** *** The embedding task *)

Definition point_id_of (document_id : string) : string :=
  uuid.str (uuid.uuid5 uuid.NAMESPACE_DNS document_id).

Definition point_of (document_id : string) (v : list Q) : PointStruct :=
  {| point_id := point_id_of document_id;
     vector := v;
     payload := [("original_id", VStr document_id)] |}.

Definition success (document_id : string) : value :=
  VDict [("status", VStr "success"); ("documentId", VStr document_id)].

(** The body of the [try]. *)
Definition create_embedding_body (env : Env)
    (collection_name document_id text_content : string) : M value :=
  v <- lift (env_encode env text_content) ;;
  Qdrant.upsert env collection_name (point_of document_id v) true ;;
  ret (success document_id).

Definition create_embedding_task (env : Env)
    (collection_name document_id text_content : string) : M value :=
  try_except
    (create_embedding_body env collection_name document_id text_content)
    (fun e => ret (error_dict e)).

End tasks.

(** ** [app/celery_worker.py]: producer, worker and result backend *)

Module celery.

Definition handler : Type := list string -> M value.

(** The tasks [autodiscover_tasks] finds in [app.tasks], under the
    names the [task] decorator gives them.  A call with the wrong
    number of arguments fails before the handler's body runs. *)
Definition registry (env : Env) : list (string * handler) :=
  [("app.tasks.parse_resume_task",
    fun args => match args with
                | [resume_url] => tasks.parse_resume_task env resume_url
                | _ => raise (Exception "TypeError" "wrong number of positional arguments")
                end);
   ("app.tasks.create_embedding_task",
    fun args => match args with
                | [collection_name; document_id; text_content] =>
                    tasks.create_embedding_task env collection_name document_id text_content
                | _ => raise (Exception "TypeError" "wrong number of positional arguments")
                end)].

Fixpoint lookup_task (name : string) (reg : list (string * handler)) : option handler :=
  match reg with
  | [] => None
  | (n, h) :: reg' => if String.eqb name n then Some h else lookup_task name reg'
  end.

(** Modelled from the spec: the producer of section 4.1, which the
    Celery library provides ([task.delay]).  It draws a fresh task id,
    appends one invocation to the broker queue and returns the id
    without running the task; when the broker is unreachable it fails
    and publishes nothing. *)
Definition delay (env : Env) (name : string) (args : list string) : M string :=
  match env_broker_fault env name with
  | Some e => raise e
  | None =>
      w <- get_world ;;
      let tid := env_uuid4 env (issued w) in
      modify (set_issued S) ;;
      modify (set_queue (fun q => (q ++ [{| task_id := tid; task_name := name;
                                            arguments := args |}])%list)) ;;
      ret tid
  end.

Definition record (tid : string) (r : TaskRecord) (w : World) : World :=
  set_results (fun rs => <[tid := r]> rs) w.

(** Modelled from the spec: one iteration of the worker loop of
    section 4.2, which the Celery library provides.  The worker claims
    the oldest message, fails an unknown task name without running
    anything, records STARTED ([task_track_started]), runs the handler
    and records SUCCESS with the returned value, or FAILURE with the
    error detail when the handler raised.  The loop itself never
    raises. *)
Definition worker_step (env : Env) (w : World) : World :=
  match queue w with
  | [] => w
  | inv :: rest =>
      let w1 := set_queue (fun _ => rest) w in
      match lookup_task (task_name inv) (registry env) with
      | None =>
          record (task_id inv)
            {| state := FAILURE; result := None; error := Some "unknown task" |} w1
      | Some h =>
          let w2 := record (task_id inv)
                      {| state := STARTED; result := None; error := None |} w1 in
          match h (arguments inv) w2 with
          | (w3, Return v) =>
              record (task_id inv)
                {| state := SUCCESS; result := Some v; error := None |} w3
          | (w3, Raise e) =>
              record (task_id inv)
                {| state := FAILURE; result := None; error := Some (str_exn e) |} w3
          end
      end
  end.

(** Modelled from the spec: polling the result store (section 3); a
    task id without a record is PENDING. *)
Definition poll (w : World) (tid : string) : TaskRecord :=
  match results w !! tid with
  | Some r => r
  | None => {| state := PENDING; result := None; error := None |}
  end.

End celery.

(** ** [app/main.py] *)

Module ResumeParseRequest.
Record t : Type := { resumeUrl : string }.
End ResumeParseRequest.

Module SyncRequest.
Record t : Type := { collection : string; documentId : string; textContent : string }.
End SyncRequest.

Module MatchRequest.
Record t : Type := { collection : string; textContent : string; limit : Z }.

(** Request-body validation: [limit: int = 10]. *)
Definition parse (collection textContent : string) (limit : option Z) : t :=
  {| collection := collection; textContent := textContent;
     limit := match limit with Some l => l | None => 10 end |}.
End MatchRequest.

Module main.

Record HttpResponse : Type := {
  http_status : Z;
  http_body : value
}.

(** What FastAPI sends for the outcome of a route function: the
    returned value with status 200, the status and detail of an
    [HTTPException], and a bare 500 for any other exception. *)
Definition respond (o : outcome value) : HttpResponse :=
  match o with
  | Return v => {| http_status := 200; http_body := v |}
  | Raise (HTTPException c d) =>
      {| http_status := c; http_body := VDict [("detail", VStr d)] |}
  | Raise (Exception _ _) =>
      {| http_status := 500; http_body := VStr "Internal Server Error" |}
  end.

Definition read_health : M value :=
  ret (VDict [("status", VStr "ok")]).

Definition submit_resume_parsing (env : Env) (request : ResumeParseRequest.t) : M value :=
  task <- celery.delay env "app.tasks.parse_resume_task"
            [ResumeParseRequest.resumeUrl request] ;;
  ret (VDict [("taskId", VStr task); ("status", VStr "processing")]).

Definition sync_document (env : Env) (request : SyncRequest.t) : M value :=
  task <- celery.delay env "app.tasks.create_embedding_task"
            [SyncRequest.collection request; SyncRequest.documentId request;
             SyncRequest.textContent request] ;;
  ret (VDict [("taskId", VStr task); ("status", VStr "syncing")]).

Definition hit_json (hit : ScoredPoint) : value :=
  VDict [("id", VStr (hit_id hit)); ("score", VFloat (score hit))].

(** The body of the [try]. *)
Definition find_matches_body (env : Env) (request : MatchRequest.t) : M value :=
  v <- lift (env_encode env (MatchRequest.textContent request)) ;;
  search_result <- Qdrant.search env (MatchRequest.collection request) v
                     (MatchRequest.limit request) ;;
  let ranked_results := hit_json <$> search_result in
  ret (VDict [("rankedResults", VList ranked_results)]).

Definition find_matches (env : Env) (request : MatchRequest.t) : M value :=
  try_except
    (find_matches_body env request)
    (fun _ => raise (HTTPException 500 "Internal server error during search.")).

(** A route as the client sees it. *)
Definition serve (route : M value) (w : World) : World * HttpResponse :=
  let '(w', o) := route w in (w', respond o).

End main.

(** ** A concrete deployment

    An environment in which the resume CDN serves one PDF and every other
    host is unreachable, the inference endpoint answers with prose that
    holds no function call, the embedding model fails on empty text, the
    vector store is down for the collection named offline, and the broker
    is up. *)

Module Demo.

Definition resume_url : string := "https://cdn.example.com/resume.pdf".

Definition unreachable_url : string := "http://resume.invalid/cv.pdf".

Definition unit_vector (x : Q) : list Q := x :: repeat 0%Q 383.

Definition env : Env := {|
  env_get := fun url =>
    if String.eqb url resume_url
    then Return {| status_code := 200; content := "%PDF-1.4";
                   json := Raise (Exception "JSONDecodeError" "Expecting value") |}
    else Raise (Exception "ConnectionError" "Failed to establish a new connection");
  env_post := fun _ _ _ =>
    Return {| status_code := 200; content := "";
              json := Return (VList [VDict [("generated_text",
                                             VStr "Sorry, I could not read this resume.")]]) |};
  env_fitz_open := fun _ => Return [Return "Jane Doe. Skills: Go, SQL."];
  env_apply_chat_template := fun _ => Return "[INST] Extract the details [/INST]";
  env_json_loads := fun _ => Raise (Exception "JSONDecodeError" "Extra data");
  env_model_dump_json := fun _ => "{}";
  env_encode := fun text =>
    if String.eqb text ""
    then Raise (Exception "RuntimeError" "tokenizer state at 0x7f3a corrupted")
    else Return (unit_vector (Z.of_nat (String.length text) # 1));
  env_similarity := fun _ q v => (hd 0 q * hd 0 v)%Q;
  env_qdrant_fault := fun op =>
    match op with
    | OpSearch c | OpUpsert c _ | OpRecreate c =>
        if String.eqb c "offline"
        then Some (Exception "ResponseHandlingException" "connection refused 10.0.3.7:6333")
        else None
    end;
  env_broker_fault := fun _ => None;
  env_uuid4 := fun n => "task-" +:+ pretty n;
  env_HUGGING_FACE_TOKEN := Some "hf_demo"
|}.

(** The process before [tasks] is imported. *)
Definition fresh : World :=
  {| collections := ∅; unapplied := []; calls := []; queue := [];
     results := ∅; issued := 0%nat |}.

(** The process after start-up. *)
Definition started : World := fst (tasks.setup_collections env fresh).

Definition job (document_id : string) (x : Q) : PointStruct :=
  tasks.point_of document_id (unit_vector x).

Definition jobs : Collection :=
  {| vectors_config := tasks.collection_params;
     points := <[point_id (job "job_101" 3) := job "job_101" 3]>
               (<[point_id (job "job_102" 7) := job "job_102" 7]>
                (<[point_id (job "job_103" 5) := job "job_103" 5]> ∅)) |}.

(** A store that holds three job postings. *)
Definition seeded : World :=
  set_collections (fun cs => <["jobs" := jobs]> cs) started.

Definition job_101 : SyncRequest.t :=
  {| SyncRequest.collection := "jobs"; SyncRequest.documentId := "job_101";
     SyncRequest.textContent := "Senior Backend Engineer specializing in Golang" |}.

Definition go_search : MatchRequest.t :=
  MatchRequest.parse "jobs" "Go developer" (Some 2).

(** A search whose text the embedding model rejects. *)
Definition empty_search : MatchRequest.t := MatchRequest.parse "jobs" "" None.

(** A search in the collection for which the store is down. *)
Definition offline_search : MatchRequest.t :=
  MatchRequest.parse "offline" "Go developer" None.

(** The first seeding request has been accepted. *)
Definition submitted : World := fst (main.sync_document env job_101 started).

(** The embedding handler has run once, and twice, for [job_101]. *)
Definition synced_once : World :=
  fst (tasks.create_embedding_task env "jobs" "job_101" "Senior Backend Engineer" started).

Definition synced_twice : World :=
  fst (tasks.create_embedding_task env "jobs" "job_101" "Lead Backend Engineer" synced_once).

End Demo.

(** ** Vocabulary of the statements *)

Definition GET (url : string) (timeout : option Z) : NetCall :=
  {| call_method := "GET"; call_url := url; call_timeout := timeout |}.

Definition POST (url : string) (timeout : option Z) : NetCall :=
  {| call_method := "POST"; call_url := url; call_timeout := timeout |}.

Definition parse_invocation (tid url : string) : Invocation :=
  {| task_id := tid; task_name := "app.tasks.parse_resume_task"; arguments := [url] |}.

Definition embedding_invocation (tid collection_name document_id text_content : string)
  : Invocation :=
  {| task_id := tid; task_name := "app.tasks.create_embedding_task";
     arguments := [collection_name; document_id; text_content] |}.

Definition started_record : TaskRecord :=
  {| state := STARTED; result := None; error := None |}.

Definition success_record (v : value) : TaskRecord :=
  {| state := SUCCESS; result := Some v; error := None |}.

(** The world in which the handler of the claimed message starts. *)
Definition claimed (tid : string) (rest : list Invocation) (w : World) : World :=
  celery.record tid started_record (set_queue (fun _ => rest) w).

Definition ok_response (body : value) : main.HttpResponse :=
  {| main.http_status := 200; main.http_body := body |}.

(** The one body the search endpoint sends on any failure. *)
Definition search_error_response : main.HttpResponse :=
  {| main.http_status := 500;
     main.http_body := VDict [("detail", VStr "Internal server error during search.")] |}.

Definition ranked (hits : list ScoredPoint) : value :=
  VDict [("rankedResults", VList (main.hit_json <$> hits))].

(** The world after one invocation has been published. *)
Definition enqueued (inv : Invocation) (w : World) : World :=
  set_queue (fun q => (q ++ [inv])%list) (set_issued S w).

Definition accepted (tid status : string) : value :=
  VDict [("taskId", VStr tid); ("status", VStr status)].

(** Case analysis on the next oracle answer or test of a handler. *)
Ltac next_case :=
  match goal with
  | |- context [match ?x with _ => _ end] =>
      lazymatch x with
      | context [match _ with _ => _ end] => fail
      | _ => destruct x eqn:?
      end
  end.

Ltac run :=
  cbv [bind lift ret raise try_except modify get_world
       requests.get requests.post requests.raise_for_status]; simpl.

(** The opening brace. *)
Definition open_brace : Ascii.ascii := Ascii.ascii_of_nat 123.

(** ** [seed_script.py] *)

Module seed_script.

Definition API_URL : string := "http://localhost:8000/internal/sync".

(** One entry of [JOBS_DATA], the dict that is posted as JSON. *)
Definition job (collection documentId textContent : string) : value :=
  VDict [("collection", VStr collection); ("documentId", VStr documentId);
         ("textContent", VStr textContent)].

Definition JOBS_DATA : list value := [
  job "jobs" "job_101"
    ("Senior Backend Engineer specializing in Golang (Go) to design, " +:+
     "develop, and maintain high-performance microservices. " +:+
     "Responsibilities include building scalable APIs, optimizing database " +:+
     "queries with PostgreSQL, and deploying services on Kubernetes. Must " +:+
     "have strong experience with gRPC, Docker, and CI/CD pipelines.");
  job "jobs" "job_102"
    ("Experienced Frontend Developer proficient in React.js and Next.js to " +:+
     "build modern, responsive user interfaces. You will work with " +:+
     "TypeScript to ensure type safety and collaborate with UX/UI " +:+
     "designers to create a seamless user experience. Experience with " +:+
     "state management libraries like Redux or Zustand is required.");
  job "jobs" "job_103"
    ("DevOps Engineer with deep knowledge of AWS cloud infrastructure and " +:+
     "container orchestration. You will manage our production environment " +:+
     "using Kubernetes (EKS), implement infrastructure as code with " +:+
     "Terraform, and maintain our monitoring stack with Prometheus and " +:+
     "Grafana. Scripting skills in Python or Bash are essential.");
  job "jobs" "job_104"
    ("Data Scientist skilled in machine learning and Python to analyze " +:+
     "large datasets and build predictive models. You should have a strong " +:+
     "background in statistics and experience with ML frameworks like " +:+
     "Scikit-learn, TensorFlow, or PyTorch. Familiarity with data " +:+
     "processing tools like Pandas and Spark is a must.");
  job "jobs" "job_105"
    ("Versatile Full-Stack Developer to work on both our Node.js backend " +:+
     "and React frontend. You will be responsible for developing " +:+
     "end-to-end features, writing RESTful APIs with Express.js, and " +:+
     "managing our MongoDB database. This role requires strong " +:+
     "problem-solving skills and the ability to work across the entire " +:+
     "stack.");
  job "jobs" "job_106"
    ("Seeking a motivated Junior Golang Developer eager to learn and " +:+
     "contribute to our backend services. You will work alongside senior " +:+
     "engineers to write clean, efficient Go code, develop unit tests, and " +:+
     "learn about microservice architecture. A basic understanding of APIs " +:+
     "and databases is required.");
  job "jobs" "job_107"
    ("Mobile Developer with experience in React Native to build " +:+
     "cross-platform applications for iOS and Android. You will be " +:+
     "responsible for implementing new features, optimizing app " +:+
     "performance, and integrating with native device APIs. Experience " +:+
     "with mobile deployment to the App Store and Google Play is a plus.");
  job "jobs" "job_108"
    ("Cloud Security Engineer to ensure the security and compliance of our " +:+
     "AWS and Kubernetes environments. Responsibilities include " +:+
     "vulnerability scanning, identity and access management (IAM), and " +:+
     "implementing security best practices for our cloud infrastructure. " +:+
     "Certifications like CISSP or AWS Security Specialty are highly " +:+
     "valued.");
  job "jobs" "job_109"
    ("AI Engineer focused on Natural Language Processing (NLP) and Large " +:+
     "Language Models (LLMs). You will build and fine-tune models for " +:+
     "tasks like text classification and entity extraction. Experience " +:+
     "with Hugging Face Transformers, PyTorch, and deploying models as " +:+
     "scalable services is required. Familiarity with vector databases " +:+
     "like Qdrant is a bonus.");
  job "jobs" "job_110"
    ("Lead Backend Engineer with a strong focus on system design and " +:+
     "architecture. You will lead a team of Golang and Python developers, " +:+
     "make high-level architectural decisions, and ensure the scalability " +:+
     "and reliability of our platform. Proven experience in designing " +:+
     "distributed systems and microservices is mandatory.")
].

(** The classes of [requests.exceptions], all of which derive from
    [RequestException]. *)
Definition request_exceptions : list string :=
  ["RequestException"; "InvalidJSONError"; "JSONDecodeError"; "HTTPError";
   "ConnectionError"; "ProxyError"; "SSLError"; "Timeout"; "ConnectTimeout";
   "ReadTimeout"; "URLRequired"; "TooManyRedirects"; "MissingSchema";
   "InvalidSchema"; "InvalidURL"; "InvalidHeader"; "InvalidProxyURL";
   "ChunkedEncodingError"; "ContentDecodingError"; "StreamConsumedError";
   "RetryError"; "UnrewindableBodyError"].

(** [isinstance(e, requests.exceptions.RequestException)] *)
Definition is_RequestException (e : exn) : bool :=
  match e with
  | Exception cls _ => existsb (String.eqb cls) request_exceptions
  | HTTPException _ _ => false
  end.

(** [try: m  except requests.exceptions.RequestException as e: h e]; any
    other exception passes through. *)
Definition try_except_request {A} (m : M A) (h : exn -> M A) : M A :=
  fun w => match m w with
           | (w', Return a) => (w', Return a)
           | (w', Raise e) => if is_RequestException e then h e w' else (w', Raise e)
           end.

(** The body of the [try] for one job: the POST, the status check, and
    the [response.json()] that the success message formats. *)
Definition post_job (env : Env) (job : value) : M unit :=
  response <- requests.post env API_URL [] job (Some 10) ;;
  requests.raise_for_status response ;;
  _ <- lift (json response) ;;
  ret tt.

(** One turn of the loop, on the counters [(success_count, failure_count)]. *)
Definition seed_job (env : Env) (counts : Z * Z) (job : value) : M (Z * Z) :=
  let '(success_count, failure_count) := counts in
  doc_id <- lift (subscript_str job "documentId") ;;
  try_except_request
    (post_job env job ;; ret (success_count + 1, failure_count))
    (fun _ => ret (success_count, failure_count + 1)).

Fixpoint seed_loop (env : Env) (jobs : list value) (counts : Z * Z) : M (Z * Z) :=
  match jobs with
  | [] => ret counts
  | job :: jobs' => counts' <- seed_job env counts job ;; seed_loop env jobs' counts'
  end.

(** [seed_database()], over the job list; the result is the pair of
    counters that the last line prints. *)
Definition seed_database_over (env : Env) (jobs : list value) : M (Z * Z) :=
  seed_loop env jobs (0, 0).

Definition seed_database (env : Env) : M (Z * Z) :=
  seed_database_over env JOBS_DATA.

End seed_script.

(** ** A deployment whose model answers with a function call *)

Module Demo2.

(** The raw output the comment in [parse_resume_task] describes: the
    marker of a tool call, then a list with one call. *)
Definition tool_call_output : string :=
  "[TOOL_CALLS] [" +:+ tasks.name_marker +:+ " extract_resume_details, arguments: {}}]".

Definition tool_call : value :=
  VDict [("name", VStr "extract_resume_details");
         ("arguments",
          VDict [("skills", VList [VStr "Go"]); ("work_experience", VList []);
                 ("education", VList [])])].

(** As [Demo.env], but the inference endpoint answers with a function
    call and the decoder yields the call object for a text that starts
    with a brace. *)
Definition env : Env := {|
  env_get := env_get Demo.env;
  env_post := fun _ _ _ =>
    Return {| status_code := 200; content := "";
              json := Return (VList [VDict [("generated_text",
                                             VStr tool_call_output)]]) |};
  env_fitz_open := env_fitz_open Demo.env;
  env_apply_chat_template := env_apply_chat_template Demo.env;
  env_json_loads := fun s =>
    match s with
    | String c _ =>
        if Ascii.eqb c open_brace then Return tool_call
        else Raise (Exception "JSONDecodeError" "Expecting value")
    | EmptyString => Raise (Exception "JSONDecodeError" "Expecting value")
    end;
  env_model_dump_json := env_model_dump_json Demo.env;
  env_encode := env_encode Demo.env;
  env_similarity := env_similarity Demo.env;
  env_qdrant_fault := env_qdrant_fault Demo.env;
  env_broker_fault := env_broker_fault Demo.env;
  env_uuid4 := env_uuid4 Demo.env;
  env_HUGGING_FACE_TOKEN := env_HUGGING_FACE_TOKEN Demo.env
|}.

End Demo2.

(** ** Vocabulary of the further statements *)


(** Every stored point sits under its own id, has the dimension of its
    collection, and is a point as the embedding task builds it: its id is
    the UUID-v5 of the document id in its payload. *)
Definition store_ok (w : World) : Prop :=
  forall c col k p,
    collections w !! c = Some col -> points col !! k = Some p ->
    point_id p = k
    /\ Qdrant.dim (vector p) = vp_size (vectors_config col)
    /\ exists d, p = tasks.point_of d (vector p).

(** [w'] differs from [w] at most in the HTTP calls issued. *)
Definition only_calls_differ (w w' : World) : Prop :=
  collections w' = collections w /\ unapplied w' = unapplied w
  /\ queue w' = queue w /\ results w' = results w /\ issued w' = issued w.

(** [json.loads] decodes as JSON does: a text that starts with an opening
    brace decodes to an object, if it decodes at all. *)
Definition loads_objects (env : Env) : Prop :=
  forall rest v, env_json_loads env (String open_brace rest) = Return v ->
                 is_dict v = true.

(** The messages the resume handler builds for a resume text. *)
Definition resume_messages (resume_text : string) : value :=
  VList [VDict [("role", VStr "user");
                ("content", VStr ("Extract the details from this resume text:"
                                  +:+ tasks.newline +:+ tasks.newline
                                  +:+ PyStr.slice_to resume_text 4000))]].

Definition good_status (r : Response) : bool :=
  negb ((400 <=? status_code r) && (status_code r <? 600)).

(** The dict form of the pydantic models: one key per declared field. *)
Definition dict_of_WorkExperience (x : WorkExperience) : value :=
  VDict [("title", VStr (title x)); ("company", VStr (company x));
         ("duration", VStr (duration x))].

Definition dict_of_Education (x : Education) : value :=
  VDict [("degree", VStr (degree x)); ("institution", VStr (institution x))].

Definition dict_of_ResumeDetails (r : ResumeDetails) : value :=
  VDict [("skills", VList (VStr <$> skills r));
         ("work_experience", VList (dict_of_WorkExperience <$> work_experience r));
         ("education", VList (dict_of_Education <$> education r))].

(** A lowercase hexadecimal digit. *)
Definition is_hex (c : Ascii.ascii) : bool :=
  let n := Z.of_nat (Ascii.nat_of_ascii c) in
  ((48 <=? n) && (n <=? 57)) || ((97 <=? n) && (n <=? 102)).

Definition hyphen : Ascii.ascii := Ascii.ascii_of_nat 45.

(** The canonical text form of a UUID of version 5: 36 characters, five
    groups of lowercase hex digits of 8, 4, 4, 4 and 12 separated by
    hyphens, the third group starting with 5, the fourth with 8, 9, a or b. *)
Definition well_formed_uuid5 (s : string) : Prop :=
  exists g1 g2 g3 v g4 g5,
    s = g1 +:+ String hyphen (g2 +:+ String hyphen
          (String (Ascii.ascii_of_nat 53) g3 +:+ String hyphen
             (String v g4 +:+ String hyphen g5)))
    /\ String.length g1 = 8%nat /\ String.length g2 = 4%nat
    /\ String.length g3 = 3%nat /\ String.length g4 = 3%nat
    /\ String.length g5 = 12%nat
    /\ In v (String.list_ascii_of_string "89ab")
    /\ forallb is_hex (String.list_ascii_of_string (g1 +:+ g2 +:+ g3 +:+ g4 +:+ g5)) = true.

(** The hex digit of [i] at position [k], counted from the low end. *)
Definition digit_at (i : Z) (k : nat) : Ascii.ascii :=
  uuid.hex_digit (Z.land (Z.shiftr i (4 * Z.of_nat k)) 15).

(** The world after the named collection has been recreated empty. *)
Definition recreated (name : string) (w : World) : World :=
  set_collections
    (fun cs => <[name := {| vectors_config := tasks.collection_params; points := ∅ |}]>
                 (delete name cs)) w.


(** * Properties *)

(** ** Hashing and identifiers *)

Example sha1_abc :
  SHA1.digest (uuid.bytes_of "abc")
  = SHA1.be_bytes 20 0xa9993e364706816aba3e25717850c26c9cd0d89d.
Proof. vm_compute. reflexivity. Qed.

Example uuid5_python_org :
  uuid.str (uuid.uuid5 uuid.NAMESPACE_DNS "python.org")
  = "886313e1-3b8a-5372-9b90-0c9aee199e5d".
Proof. vm_compute. reflexivity. Qed.

Example uuid5_job_101 :
  uuid.str (uuid.uuid5 uuid.NAMESPACE_DNS "job_101")
  = "1b3811b5-54e5-5a71-874f-b33066168f7b".
Proof. vm_compute. reflexivity. Qed.

Example uuid5_long :
  uuid.str (uuid.uuid5 uuid.NAMESPACE_DNS "xxxxxxxxxxxxxxxxxxxxxxxxxxxxxxxxxxxxxxxxxxxxxxxxxxxxxxxxxxxx")
  = "f7a7b7a9-e0c0-5062-875b-7505b6b8aadd".
Proof. vm_compute. reflexivity. Qed.

(** ** The monad *)

Lemma bind_Return_inv {A B} (m : M A) (k : A -> M B) w w' b :
  bind m k w = (w', Return b) ->
  exists a w1, m w = (w1, Return a) /\ k a w1 = (w', Return b).
Proof.
  unfold bind. destruct (m w) as [w1 [a|e]]; intros H; [eauto | discriminate].
Qed.

Lemma bind_Raise_inv {A B} (m : M A) (k : A -> M B) w w' e :
  bind m k w = (w', Raise e) ->
  m w = (w', Raise e) \/ exists a w1, m w = (w1, Return a) /\ k a w1 = (w', Raise e).
Proof.
  unfold bind. destruct (m w) as [w1 [a|e1]]; intros H; [eauto | left; congruence].
Qed.

Lemma bind_Return {A B} (m : M A) (k : A -> M B) w w1 a :
  m w = (w1, Return a) -> bind m k w = k a w1.
Proof. unfold bind. intros ->. reflexivity. Qed.

Lemma bind_Raise {A B} (m : M A) (k : A -> M B) w w1 e :
  m w = (w1, Raise e) -> bind m k w = (w1, Raise e).
Proof. unfold bind. intros ->. reflexivity. Qed.

(** A [try] whose handler returns never raises. *)
Lemma try_except_returns {A} (m : M A) (h : exn -> M A) :
  (forall e w, exists w' a, h e w = (w', Return a)) ->
  forall w, exists w' a, try_except m h w = (w', Return a).
Proof.
  intros Hh w. unfold try_except. destruct (m w) as [w1 [a|e]]; eauto.
Qed.

Lemma try_except_Return {A} (m : M A) (h : exn -> M A) w w1 a :
  m w = (w1, Return a) -> try_except m h w = (w1, Return a).
Proof. unfold try_except. intros ->. reflexivity. Qed.

Lemma try_except_Raise {A} (m : M A) (h : exn -> M A) w w1 e :
  m w = (w1, Raise e) -> try_except m h w = h e w1.
Proof. unfold try_except. intros ->. reflexivity. Qed.

(** ** Outbound calls of the resume handler *)

Lemma fetch_resume_text_calls env url w :
  calls (fst (tasks.fetch_resume_text env url w)) = (calls w ++ [GET url None])%list.
Proof.
  unfold tasks.fetch_resume_text. run.
  repeat (next_case; simpl; try reflexivity).
Qed.

Lemma raw_llm_output_calls env text w :
  calls (fst (tasks.raw_llm_output env text w)) = calls w \/
  calls (fst (tasks.raw_llm_output env text w))
  = (calls w ++ [POST tasks.HF_API_URL (Some 90)])%list.
Proof.
  unfold tasks.raw_llm_output. run.
  repeat (next_case; simpl; auto).
Qed.

Lemma extract_function_call_world env raw w :
  fst (tasks.extract_function_call env raw w) = w.
Proof.
  unfold tasks.extract_function_call. run.
  repeat (next_case; simpl; try reflexivity).
Qed.

Lemma try_except_ret_world {A} (m : M A) (f : exn -> A) w :
  fst (try_except m (fun e => ret (f e)) w) = fst (m w).
Proof. unfold try_except, ret. destruct (m w) as [w1 [a|e]]; reflexivity. Qed.

Lemma parse_resume_body_calls env url w :
  calls (fst (tasks.parse_resume_body env url w)) = (calls w ++ [GET url None])%list \/
  calls (fst (tasks.parse_resume_body env url w))
  = (calls w ++ [GET url None; POST tasks.HF_API_URL (Some 90)])%list.
Proof.
  unfold tasks.parse_resume_body, bind.
  pose proof (fetch_resume_text_calls env url w) as Hf.
  destruct (tasks.fetch_resume_text env url w) as [w1 [text|e]]; simpl in *; auto.
  pose proof (raw_llm_output_calls env text w1) as Hr.
  destruct (tasks.raw_llm_output env text w1) as [w2 [raw|e]]; simpl in *.
  - rewrite try_except_ret_world, extract_function_call_world.
    destruct Hr as [-> | ->]; rewrite Hf; [left | right]; try reflexivity.
    rewrite <- app_assoc. reflexivity.
  - destruct Hr as [-> | ->]; rewrite Hf; [left | right]; try reflexivity.
    rewrite <- app_assoc. reflexivity.
Qed.

(** C10: whatever the services answer, the resume handler issues the
    download as a GET of the resume URL without a timeout, and after it at
    most one more call, the POST to the inference endpoint with a timeout
    of 90 seconds.  No other outbound call is made. *)
Theorem parse_resume_task_timeouts (env : Env) (resume_url : string) (w : World) :
  let issued_calls := calls (fst (tasks.parse_resume_task env resume_url w)) in
  issued_calls = (calls w ++ [GET resume_url None])%list \/
  issued_calls = (calls w ++ [GET resume_url None; POST tasks.HF_API_URL (Some 90)])%list.
Proof.
  simpl. unfold tasks.parse_resume_task. rewrite try_except_ret_world.
  apply parse_resume_body_calls.
Qed.

(** ** The worker *)

Lemma poll_record tid r w : celery.poll (celery.record tid r w) tid = r.
Proof.
  unfold celery.poll, celery.record, set_results. simpl.
  rewrite lookup_insert_eq. reflexivity.
Qed.

Lemma queue_record tid r w : queue (celery.record tid r w) = queue w.
Proof. reflexivity. Qed.

Lemma worker_step_parse env w tid url rest w' v :
  queue w = parse_invocation tid url :: rest ->
  tasks.parse_resume_task env url (claimed tid rest w) = (w', Return v) ->
  celery.worker_step env w = celery.record tid (success_record v) w'.
Proof.
  intros Hq Hrun. unfold celery.worker_step. rewrite Hq. simpl.
  unfold claimed, started_record in Hrun. rewrite Hrun. reflexivity.
Qed.

Lemma worker_step_embedding env w tid c d t rest w' v :
  queue w = embedding_invocation tid c d t :: rest ->
  tasks.create_embedding_task env c d t (claimed tid rest w) = (w', Return v) ->
  celery.worker_step env w = celery.record tid (success_record v) w'.
Proof.
  intros Hq Hrun. unfold celery.worker_step. rewrite Hq. simpl.
  unfold claimed, started_record in Hrun. rewrite Hrun. reflexivity.
Qed.

(** ** What the handlers return *)

Lemma extract_function_call_Return env raw w w' v :
  tasks.extract_function_call env raw w = (w', Return v) ->
  is_str v = true \/ v = tasks.not_found.
Proof.
  unfold tasks.extract_function_call. run.
  repeat (next_case; simpl; try discriminate); intros [= <- <-]; auto.
Qed.

Lemma has_error_not_found : has_key "error" tasks.not_found.
Proof. simpl. eauto. Qed.

Lemma has_error_failed_to_parse raw : has_key "error" (tasks.failed_to_parse raw).
Proof. simpl. eauto. Qed.

Lemma has_error_error_dict e : has_key "error" (tasks.error_dict e).
Proof. simpl. eauto. Qed.

Lemma parse_resume_body_Return env url w w' v :
  tasks.parse_resume_body env url w = (w', Return v) ->
  is_str v = true \/ has_key "error" v.
Proof.
  unfold tasks.parse_resume_body. intros H.
  apply bind_Return_inv in H as (text & w1 & _ & H).
  apply bind_Return_inv in H as (raw & w2 & _ & H).
  unfold try_except in H.
  destruct (tasks.extract_function_call env raw w2) as [w3 [a|e]] eqn:Hx.
  - injection H as <- <-.
    apply extract_function_call_Return in Hx as [Hs | ->]; auto using has_error_not_found.
  - injection H as <- <-. right. apply has_error_failed_to_parse.
Qed.

(** The embedding handler either stores the point and reports success, or
    leaves the store as it was and returns an error dict. *)
Lemma create_embedding_task_cases env c d t w :
  (exists e, tasks.create_embedding_task env c d t w = (w, Return (tasks.error_dict e))) \/
  (exists v col,
      env_encode env t = Return v /\
      env_qdrant_fault env (OpUpsert c (tasks.point_id_of d)) = None /\
      collections w !! c = Some col /\
      Qdrant.dim v = vp_size (vectors_config col) /\
      tasks.create_embedding_task env c d t w
      = (set_collections (fun cs => <[c := Qdrant.put_point (tasks.point_of d v) col]> cs) w,
         Return (tasks.success d))).
Proof.
  unfold tasks.create_embedding_task, tasks.create_embedding_body, Qdrant.upsert,
    Qdrant.fault. run.
  destruct (env_encode env t) as [v|e] eqn:He; simpl; [|eauto].
  destruct (env_qdrant_fault env _) as [e|] eqn:Hf; simpl; [eauto|].
  destruct (collections w !! c) as [col|] eqn:Hc; simpl; [|eauto].
  destruct (Qdrant.dim v =? vp_size (vectors_config col)) eqn:Hd; simpl; [|eauto].
  right. exists v, col. repeat split; auto. lia.
Qed.

Lemma parse_resume_task_returns env url w :
  exists w' v, tasks.parse_resume_task env url w = (w', Return v) /\
               (is_str v = true \/ has_key "error" v).
Proof.
  unfold tasks.parse_resume_task, try_except.
  destruct (tasks.parse_resume_body env url w) as [w1 [v|e]] eqn:Hb.
  - exists w1, v. split; [reflexivity|]. eapply parse_resume_body_Return; eauto.
  - exists w1, (tasks.error_dict e). split; [reflexivity|].
    right. apply has_error_error_dict.
Qed.

Lemma create_embedding_task_returns env c d t w :
  exists w' v, tasks.create_embedding_task env c d t w = (w', Return v) /\
               (v = tasks.success d \/ has_key "error" v).
Proof.
  destruct (create_embedding_task_cases env c d t w) as [[e H] | (v & col & _ & _ & _ & _ & H)].
  - eauto using has_error_error_dict.
  - eauto.
Qed.

Lemma create_embedding_body_Return env c d t w w' v :
  tasks.create_embedding_body env c d t w = (w', Return v) -> v = tasks.success d.
Proof.
  unfold tasks.create_embedding_body. intros H.
  apply bind_Return_inv in H as (x & w1 & _ & H).
  apply bind_Return_inv in H as (u & w2 & _ & H).
  unfold ret in H. congruence.
Qed.

(** C2: neither handler ever raises.  When the body of the [try] raises,
    the handler returns the dict with the key "error" holding the text of
    the exception; when it returns, the handler returns that value, which
    for the resume task is the JSON string of the validated details or a
    dict with the key "error", and for the embedding task is the success
    dict.  The worker therefore records SUCCESS for every invocation of
    either task, also when processing failed. *)
Theorem handlers_catch_every_failure (env : Env) :
  (forall url w,
      match tasks.parse_resume_body env url w with
      | (w', Raise e) =>
          tasks.parse_resume_task env url w = (w', Return (tasks.error_dict e))
      | (w', Return v) =>
          tasks.parse_resume_task env url w = (w', Return v)
          /\ (is_str v = true \/ has_key "error" v)
      end)
  /\ (forall c d t w,
      match tasks.create_embedding_body env c d t w with
      | (w', Raise e) =>
          tasks.create_embedding_task env c d t w = (w', Return (tasks.error_dict e))
      | (w', Return v) =>
          tasks.create_embedding_task env c d t w = (w', Return v) /\ v = tasks.success d
      end)
  /\ (forall url w, exists w' v,
         tasks.parse_resume_task env url w = (w', Return v)
         /\ (is_str v = true \/ has_key "error" v))
  /\ (forall c d t w, exists w' v,
         tasks.create_embedding_task env c d t w = (w', Return v)
         /\ (v = tasks.success d \/ has_key "error" v))
  /\ (forall tid url rest w,
         state (celery.poll
                  (celery.worker_step env
                     (set_queue (fun _ => parse_invocation tid url :: rest) w)) tid)
         = SUCCESS)
  /\ (forall tid c d t rest w,
         state (celery.poll
                  (celery.worker_step env
                     (set_queue (fun _ => embedding_invocation tid c d t :: rest) w)) tid)
         = SUCCESS).
Proof.
  split; [|split; [|split; [|split; [|split]]]].
  - intros url w. unfold tasks.parse_resume_task, try_except.
    destruct (tasks.parse_resume_body env url w) as [w1 [v|e]] eqn:Hb; [|reflexivity].
    split; [reflexivity|]. eapply parse_resume_body_Return; eauto.
  - intros c d t w. unfold tasks.create_embedding_task, try_except.
    destruct (tasks.create_embedding_body env c d t w) as [w1 [v|e]] eqn:Hb; [|reflexivity].
    split; [reflexivity|]. eapply create_embedding_body_Return; eauto.
  - apply parse_resume_task_returns.
  - apply create_embedding_task_returns.
  - intros tid url rest w.
    set (w0 := set_queue _ w).
    destruct (parse_resume_task_returns env url (claimed tid rest w0)) as (w' & v & Hrun & _).
    rewrite (worker_step_parse env w0 tid url rest w' v); auto.
    rewrite poll_record. reflexivity.
  - intros tid c d t rest w.
    set (w0 := set_queue _ w).
    destruct (create_embedding_task_returns env c d t (claimed tid rest w0))
      as (w' & v & Hrun & _).
    rewrite (worker_step_embedding env w0 tid c d t rest w' v); auto.
    rewrite poll_record. reflexivity.
Qed.

Example demo_resume_calls :
  calls (fst (tasks.parse_resume_task Demo.env Demo.resume_url Demo.started))
  = [GET Demo.resume_url None; POST tasks.HF_API_URL (Some 90)].
Proof. vm_compute. reflexivity. Qed.

Example demo_unreachable_calls :
  calls (fst (tasks.parse_resume_task Demo.env Demo.unreachable_url Demo.started))
  = [GET Demo.unreachable_url None].
Proof. vm_compute. reflexivity. Qed.

(** ** Failed downloads *)

Lemma parse_resume_task_unreachable env url w e :
  env_get env url = Raise e ->
  tasks.parse_resume_task env url w
  = (set_calls (fun cs => (cs ++ [GET url None])%list) w, Return (tasks.error_dict e)).
Proof.
  intros He. unfold tasks.parse_resume_task, tasks.parse_resume_body,
    tasks.fetch_resume_text. run. rewrite He. reflexivity.
Qed.

(** C1, as the code has it: when the download of the resume raises (a
    malformed or unreachable URL), the handler catches the exception and
    returns the dict with the key "error", so the worker records the task
    as SUCCESS with that dict as its result, not as FAILURE.  The record
    does not stay PENDING, and the worker goes on with the rest of the
    queue. *)
Theorem unreachable_resume_recorded_SUCCESS
    (env : Env) (w : World) (tid url : string) (rest : list Invocation) (e : exn) :
  queue w = parse_invocation tid url :: rest ->
  env_get env url = Raise e ->
  let w' := celery.worker_step env w in
  celery.poll w' tid = success_record (tasks.error_dict e)
  /\ state (celery.poll w' tid) <> PENDING
  /\ queue w' = rest.
Proof.
  intros Hq He w'. subst w'.
  rewrite (worker_step_parse env w tid url rest _ _ Hq
             (parse_resume_task_unreachable env url _ e He)).
  rewrite poll_record. repeat split; discriminate.
Qed.

Lemma unreachable_resume_recorded_SUCCESS_witness :
  let w := fst (main.submit_resume_parsing Demo.env
                  {| ResumeParseRequest.resumeUrl := Demo.unreachable_url |} Demo.started) in
  let w' := celery.worker_step Demo.env w in
  celery.poll w' "task-0"
  = success_record
      (tasks.error_dict (Exception "ConnectionError" "Failed to establish a new connection"))
  /\ state (celery.poll w' "task-0") <> PENDING
  /\ queue w' = [].
Proof.
  apply (unreachable_resume_recorded_SUCCESS Demo.env _ "task-0" Demo.unreachable_url []);
    reflexivity.
Defined.

(** C1, as stated, fails: the task for an unreachable URL ends in SUCCESS. *)
Lemma unreachable_resume_not_FAILURE :
  let w := fst (main.submit_resume_parsing Demo.env
                  {| ResumeParseRequest.resumeUrl := Demo.unreachable_url |} Demo.started) in
  let w' := celery.worker_step Demo.env w in
  env_get Demo.env Demo.unreachable_url
  = Raise (Exception "ConnectionError" "Failed to establish a new connection")
  /\ state (celery.poll w' "task-0") = SUCCESS
  /\ state (celery.poll w' "task-0") <> FAILURE.
Proof.
  split; [reflexivity|].
  split; vm_compute; [reflexivity | discriminate].
Qed.

(** ** The delimiter scan *)

Example find_marker_present :
  PyStr.find ("[TOOL_CALLS] [" +:+ tasks.name_marker +:+ " x}]") tasks.name_marker = 14.
Proof. reflexivity. Qed.

Example find_marker_absent :
  PyStr.find "Sorry, I could not read this resume." tasks.name_marker = -1.
Proof. reflexivity. Qed.

Lemma find_from_eq sub s i :
  PyStr.find_from sub s i
  = if String.prefix sub s then i
    else match s with
         | EmptyString => -1
         | String _ s' => PyStr.find_from sub s' (i + 1)
         end.
Proof. destruct s; reflexivity. Qed.

Lemma find_from_not_found sub s i :
  0 <= i ->
  PyStr.find_from sub s i = -1 <-> forall n, String.prefix sub (PyStr.drop n s) = false.
Proof.
  revert i. induction s as [|c s IH]; intros i Hi; rewrite find_from_eq.
  - destruct (String.prefix sub "") eqn:Hp.
    + split; [intros; exfalso; lia | intros H; specialize (H O); cbn [PyStr.drop] in H; congruence].
    + split; [intros _ [|n]; exact Hp | reflexivity].
  - destruct (String.prefix sub (String c s)) eqn:Hp.
    + split; [intros; exfalso; lia | intros H; specialize (H O); cbn [PyStr.drop] in H; congruence].
    + rewrite IH by lia. split.
      * intros H [|n]; [exact Hp | apply H].
      * intros H n. apply (H (S n)).
Qed.

(** The scan answers [-1] exactly when no suffix of the text starts with
    the search string. *)
Lemma find_not_found s sub :
  PyStr.find s sub = -1 <-> forall n, String.prefix sub (PyStr.drop n s) = false.
Proof. apply find_from_not_found. lia. Qed.

Lemma fetch_resume_text_queue env url w :
  queue (fst (tasks.fetch_resume_text env url w)) = queue w.
Proof.
  unfold tasks.fetch_resume_text. run.
  repeat (next_case; simpl; try reflexivity).
Qed.

Lemma raw_llm_output_queue env text w :
  queue (fst (tasks.raw_llm_output env text w)) = queue w.
Proof.
  unfold tasks.raw_llm_output. run.
  repeat (next_case; simpl; try reflexivity).
Qed.

Lemma extract_function_call_not_found env s w :
  PyStr.find s tasks.name_marker = -1 ->
  tasks.extract_function_call env (VStr s) w = (w, Return tasks.not_found).
Proof.
  intros Hf. unfold tasks.extract_function_call, tasks.find_in. run.
  rewrite Hf. reflexivity.
Qed.

Lemma parse_resume_task_not_found env url w text s w1 w2 :
  tasks.fetch_resume_text env url w = (w1, Return text) ->
  tasks.raw_llm_output env text w1 = (w2, Return (VStr s)) ->
  PyStr.find s tasks.name_marker = -1 ->
  tasks.parse_resume_task env url w = (w2, Return tasks.not_found).
Proof.
  intros Hfetch Hraw Hf.
  unfold tasks.parse_resume_task, tasks.parse_resume_body.
  apply try_except_Return.
  rewrite (bind_Return _ _ _ _ _ Hfetch), (bind_Return _ _ _ _ _ Hraw).
  apply try_except_Return. apply extract_function_call_not_found. exact Hf.
Qed.

(** C3, as the code has it: when the raw output of the model is a string
    in which the scan for the search string answers [-1], the handler
    raises nothing and returns the dict whose key "error" holds
    "Function call JSON not found in model output."; the worker records
    the task as SUCCESS with that dict as its result and no error detail,
    and goes on with the rest of the queue. *)
Theorem missing_function_call_recorded_SUCCESS
    (env : Env) (w : World) (tid url : string) (rest : list Invocation)
    (text s : string) (w1 w2 : World) :
  queue w = parse_invocation tid url :: rest ->
  tasks.fetch_resume_text env url (claimed tid rest w) = (w1, Return text) ->
  tasks.raw_llm_output env text w1 = (w2, Return (VStr s)) ->
  PyStr.find s tasks.name_marker = -1 ->
  let w' := celery.worker_step env w in
  celery.poll w' tid = success_record tasks.not_found
  /\ error (celery.poll w' tid) = None
  /\ queue w' = rest.
Proof.
  intros Hq Hfetch Hraw Hf w'. subst w'.
  rewrite (worker_step_parse env w tid url rest _ _ Hq
             (parse_resume_task_not_found env url _ text s w1 w2 Hfetch Hraw Hf)).
  rewrite poll_record, queue_record.
  pose proof (fetch_resume_text_queue env url (claimed tid rest w)) as Q1.
  pose proof (raw_llm_output_queue env text w1) as Q2.
  rewrite Hfetch in Q1. rewrite Hraw in Q2. simpl in Q1, Q2.
  repeat split. congruence.
Qed.

Lemma missing_function_call_recorded_SUCCESS_witness :
  let w := fst (main.submit_resume_parsing Demo.env
                  {| ResumeParseRequest.resumeUrl := Demo.resume_url |} Demo.started) in
  let w' := celery.worker_step Demo.env w in
  celery.poll w' "task-0" = success_record tasks.not_found
  /\ error (celery.poll w' "task-0") = None
  /\ queue w' = [].
Proof.
  eapply (missing_function_call_recorded_SUCCESS Demo.env _ "task-0" Demo.resume_url []
            "Jane Doe. Skills: Go, SQL." "Sorry, I could not read this resume.");
    [reflexivity | vm_compute; reflexivity | vm_compute; reflexivity | reflexivity].
Defined.

(** C3, as stated, fails: when the scan finds nothing the task ends in
    SUCCESS and carries no error detail. *)
Lemma missing_function_call_not_FAILURE :
  let w := fst (main.submit_resume_parsing Demo.env
                  {| ResumeParseRequest.resumeUrl := Demo.resume_url |} Demo.started) in
  let r := celery.poll (celery.worker_step Demo.env w) "task-0" in
  state r = SUCCESS /\ state r <> FAILURE /\ error r = None
  /\ result r = Some tasks.not_found.
Proof.
  repeat split; vm_compute; (reflexivity || discriminate).
Qed.

(** The slice handed to [json.loads] starts at the opening brace, so what
    parses is a JSON object; subscripting it with [0] raises KeyError,
    which the inner [except] turns into the parse-failure dict. *)
Lemma function_call_object_fails env s d w :
  PyStr.find s tasks.name_marker <> -1 ->
  env_json_loads env (PyStr.slice_from s (PyStr.find s tasks.name_marker))
  = Return (VDict d) ->
  try_except (tasks.extract_function_call env (VStr s))
    (fun _ => ret (tasks.failed_to_parse (VStr s))) w
  = (w, Return (tasks.failed_to_parse (VStr s))).
Proof.
  intros Hf Hj. unfold tasks.extract_function_call, tasks.find_in, tasks.tail_of. run.
  destruct (PyStr.find s tasks.name_marker =? -1) eqn:E; [lia|]. simpl.
  rewrite Hj. reflexivity.
Qed.

Example validate_resume_details :
  tasks.make_ResumeDetails
    (VDict [("skills", VList [VStr "Go"; VStr "SQL"]);
            ("work_experience",
             VList [VDict [("title", VStr "Engineer"); ("company", VStr "Acme");
                           ("duration", VStr "2020-2023")]]);
            ("education", VList [])])
  = Return {| skills := ["Go"; "SQL"];
              work_experience := [{| title := "Engineer"; company := "Acme";
                                     duration := "2020-2023" |}];
              education := [] |}.
Proof. reflexivity. Qed.

Example validate_rejects_number :
  tasks.make_ResumeDetails
    (VDict [("skills", VList [VInt 3]); ("work_experience", VList []);
            ("education", VList [])])
  = Raise (tasks.ValidationError "Input should be a valid string").
Proof. reflexivity. Qed.

(** ** Start-up of the vector store *)

Lemma recreate_collection_ok env name cfg w :
  env_qdrant_fault env (OpRecreate name) = None ->
  Qdrant.recreate_collection env name cfg w
  = (set_collections
       (fun cs => <[name := {| vectors_config := cfg; points := ∅ |}]> (delete name cs)) w,
     Return tt).
Proof.
  intros Hf. unfold Qdrant.recreate_collection, Qdrant.fault. run. rewrite Hf. reflexivity.
Qed.

(** C5: when the store accepts both calls, the start-up block of [tasks]
    leaves the collections "jobs" and "profiles" empty, each configured
    for 384-dimensional vectors under cosine distance, whatever points
    they held before; no other collection changes, and the block itself
    does not raise. *)
Theorem setup_collections_recreates (env : Env) (w : World) :
  env_qdrant_fault env (OpRecreate "jobs") = None ->
  env_qdrant_fault env (OpRecreate "profiles") = None ->
  let w' := fst (tasks.setup_collections env w) in
  let empty := {| vectors_config := {| vp_size := 384; vp_distance := COSINE |};
                  points := ∅ |} in
  snd (tasks.setup_collections env w) = Return tt
  /\ collections w' !! "jobs" = Some empty
  /\ collections w' !! "profiles" = Some empty
  /\ (forall name, name <> "jobs" -> name <> "profiles" ->
                   collections w' !! name = collections w !! name).
Proof.
  intros Hj Hp. unfold tasks.setup_collections.
  erewrite try_except_Return; cycle 1.
  { erewrite bind_Return by (apply recreate_collection_ok; exact Hj).
    apply recreate_collection_ok; exact Hp. }
  simpl. split; [reflexivity|]. split; [|split].
  - rewrite lookup_insert_ne by discriminate.
    rewrite lookup_delete_ne by discriminate.
    rewrite lookup_insert_eq. reflexivity.
  - rewrite lookup_insert_eq. reflexivity.
  - intros name Hnj Hnp.
    rewrite lookup_insert_ne by congruence. rewrite lookup_delete_ne by congruence.
    rewrite lookup_insert_ne by congruence. rewrite lookup_delete_ne by congruence.
    reflexivity.
Qed.

Lemma setup_collections_recreates_witness :
  let w' := fst (tasks.setup_collections Demo.env Demo.seeded) in
  let empty := {| vectors_config := {| vp_size := 384; vp_distance := COSINE |};
                  points := ∅ |} in
  snd (tasks.setup_collections Demo.env Demo.seeded) = Return tt
  /\ collections w' !! "jobs" = Some empty
  /\ collections w' !! "profiles" = Some empty
  /\ (forall name, name <> "jobs" -> name <> "profiles" ->
                   collections w' !! name = collections Demo.seeded !! name).
Proof.
  apply (setup_collections_recreates Demo.env Demo.seeded); reflexivity.
Defined.

Example seeded_jobs_hold_three_points :
  (size ∘ points) <$> (collections Demo.seeded !! "jobs") = Some 3%nat.
Proof. vm_compute. reflexivity. Qed.

(** The start-up block swallows a store failure: nothing is recreated and
    the import goes on. *)
Lemma setup_collections_never_raises env w :
  snd (tasks.setup_collections env w) = Return tt.
Proof.
  unfold tasks.setup_collections, try_except.
  destruct (bind _ _ w) as [w1 [[]|e]]; reflexivity.
Qed.

(** ** The embedding task and the store *)

Lemma success_not_error d e : tasks.success d <> tasks.error_dict e.
Proof. discriminate. Qed.

(** What a successful run of the embedding handler did. *)
Lemma create_embedding_task_success env c d t w w' :
  tasks.create_embedding_task env c d t w = (w', Return (tasks.success d)) ->
  exists v col,
    env_encode env t = Return v
    /\ collections w !! c = Some col
    /\ Qdrant.dim v = vp_size (vectors_config col)
    /\ w' = set_collections
              (fun cs => <[c := Qdrant.put_point (tasks.point_of d v) col]> cs) w.
Proof.
  intros H.
  destruct (create_embedding_task_cases env c d t w)
    as [[e He] | (v & col & Hv & _ & Hc & Hd & Hrun)].
  - rewrite He in H. exfalso. apply (success_not_error d e). congruence.
  - rewrite Hrun in H. exists v, col. repeat split; auto. congruence.
Qed.

(** C4: the point id is the UUID-v5 of the document id in the DNS
    namespace and depends on nothing else.  When the embedding task
    succeeds twice for the same document id, the second upsert lands on
    the id of the first: the collection holds the same ids and as many
    points after the second run as after the first, the point under that
    id is the one of the second run, and every other point is as it was. *)
Theorem embedding_resubmission_overwrites
    (env : Env) (w w1 w2 : World) (c d t1 t2 : string) :
  tasks.create_embedding_task env c d t1 w = (w1, Return (tasks.success d)) ->
  tasks.create_embedding_task env c d t2 w1 = (w2, Return (tasks.success d)) ->
  exists col1 col2 v2,
    collections w1 !! c = Some col1
    /\ collections w2 !! c = Some col2
    /\ env_encode env t2 = Return v2
    /\ tasks.point_id_of d = uuid.str (uuid.uuid5 uuid.NAMESPACE_DNS d)
    /\ points col2 !! tasks.point_id_of d = Some (tasks.point_of d v2)
    /\ dom (points col2) = dom (points col1)
    /\ size (points col2) = size (points col1)
    /\ (forall pid, pid <> tasks.point_id_of d -> points col2 !! pid = points col1 !! pid).
Proof.
  intros H1 H2.
  apply create_embedding_task_success in H1 as (v1 & col & _ & Hc & _ & ->).
  apply create_embedding_task_success in H2 as (v2 & col1 & Hv2 & Hc1 & _ & ->).
  simpl in Hc1. rewrite lookup_insert_eq in Hc1. injection Hc1 as <-.
  exists (Qdrant.put_point (tasks.point_of d v1) col),
         (Qdrant.put_point (tasks.point_of d v2) (Qdrant.put_point (tasks.point_of d v1) col)),
         v2.
  simpl. rewrite !lookup_insert_eq.
  repeat split; auto.
  - apply dom_insert_lookup_L. rewrite lookup_insert_eq. eauto.
  - apply map_size_insert_Some. rewrite lookup_insert_eq. eauto.
  - intros pid Hne. rewrite lookup_insert_ne by congruence. reflexivity.
Qed.

Lemma embedding_resubmission_overwrites_witness :
  exists col1 col2 v2,
    collections Demo.synced_once !! "jobs" = Some col1
    /\ collections Demo.synced_twice !! "jobs" = Some col2
    /\ env_encode Demo.env "Lead Backend Engineer" = Return v2
    /\ tasks.point_id_of "job_101" = uuid.str (uuid.uuid5 uuid.NAMESPACE_DNS "job_101")
    /\ points col2 !! tasks.point_id_of "job_101" = Some (tasks.point_of "job_101" v2)
    /\ dom (points col2) = dom (points col1)
    /\ size (points col2) = size (points col1)
    /\ (forall pid, pid <> tasks.point_id_of "job_101" ->
                    points col2 !! pid = points col1 !! pid).
Proof.
  apply (embedding_resubmission_overwrites Demo.env Demo.started Demo.synced_once
           Demo.synced_twice "jobs" "job_101"
           "Senior Backend Engineer" "Lead Backend Engineer");
    vm_compute; reflexivity.
Defined.

Example job_101_point_id :
  tasks.point_id_of "job_101" = "1b3811b5-54e5-5a71-874f-b33066168f7b".
Proof. vm_compute. reflexivity. Qed.

Example resubmission_keeps_one_point :
  (size ∘ points) <$> (collections Demo.synced_once !! "jobs") = Some 1%nat
  /\ (size ∘ points) <$> (collections Demo.synced_twice !! "jobs") = Some 1%nat.
Proof. split; vm_compute; reflexivity. Qed.

(** C8: when the embedding task of a claimed invocation completes
    without an error, its result is the dict with status "success" and
    the document id, the worker records SUCCESS with that result, and when
    the handler returns the store already holds, under the derived id, the
    point with the encoded vector and the payload that maps "original_id"
    to the document id; no upsert is left waiting to be applied. *)
Theorem embedding_success_recorded
    (env : Env) (w w1 : World) (tid c d t : string) (rest : list Invocation) (v : value) :
  queue w = embedding_invocation tid c d t :: rest ->
  tasks.create_embedding_task env c d t (claimed tid rest w) = (w1, Return v) ->
  ~ has_key "error" v ->
  let w' := celery.worker_step env w in
  v = tasks.success d
  /\ celery.poll w' tid = success_record (tasks.success d)
  /\ unapplied w' = unapplied w
  /\ exists vec col,
       env_encode env t = Return vec
       /\ collections w1 !! c = Some col
       /\ collections w' !! c = Some col
       /\ points col !! tasks.point_id_of d
          = Some {| point_id := tasks.point_id_of d; vector := vec;
                    payload := [("original_id", VStr d)] |}.
Proof.
  intros Hq Hrun Hok w'. subst w'.
  rewrite (worker_step_embedding env w tid c d t rest w1 v Hq Hrun).
  rewrite poll_record.
  destruct (create_embedding_task_returns env c d t (claimed tid rest w))
    as (w1' & v' & Hrun' & Hv).
  rewrite Hrun in Hrun'. injection Hrun' as <- <-.
  destruct Hv as [-> | Herr]; [|contradiction].
  apply create_embedding_task_success in Hrun as (vec & col & Hvec & Hc & _ & ->).
  split; [reflexivity|]. split; [reflexivity|]. split; [reflexivity|].
  exists vec, (Qdrant.put_point (tasks.point_of d vec) col).
  simpl. rewrite !lookup_insert_eq. auto.
Qed.

Lemma embedding_success_recorded_witness :
  let w' := celery.worker_step Demo.env Demo.submitted in
  tasks.success "job_101" = tasks.success "job_101"
  /\ celery.poll w' "task-0" = success_record (tasks.success "job_101")
  /\ unapplied w' = unapplied Demo.submitted
  /\ exists vec col,
       env_encode Demo.env "Senior Backend Engineer specializing in Golang" = Return vec
       /\ collections (fst (tasks.create_embedding_task Demo.env "jobs" "job_101"
                              "Senior Backend Engineer specializing in Golang"
                              (claimed "task-0" [] Demo.submitted))) !! "jobs" = Some col
       /\ collections w' !! "jobs" = Some col
       /\ points col !! tasks.point_id_of "job_101"
          = Some {| point_id := tasks.point_id_of "job_101"; vector := vec;
                    payload := [("original_id", VStr "job_101")] |}.
Proof.
  apply (embedding_success_recorded Demo.env Demo.submitted _ "task-0" "jobs" "job_101"
           "Senior Backend Engineer specializing in Golang" [] (tasks.success "job_101")).
  - reflexivity.
  - vm_compute. reflexivity.
  - simpl. intros [x Hx]. discriminate Hx.
Defined.

(** Without [wait] the store would only have queued the point. *)
Example upsert_without_wait_is_not_visible :
  let w' := fst (Qdrant.upsert Demo.env "jobs" (Demo.job "job_104" 2) false Demo.started) in
  (fun col => points col !! tasks.point_id_of "job_104") <$> (collections w' !! "jobs")
  = Some None
  /\ length (unapplied w') = 1%nat.
Proof. split; vm_compute; reflexivity. Qed.

(** ** Ranking *)

#[local] Instance ranks_before_total : Total Qdrant.ranks_before.
Proof.
  intros a b. unfold Qdrant.ranks_before.
  destruct (Qlt_le_dec (score a) (score b)) as [H | H]; [right | left]; auto.
  apply Qlt_le_weak, H.
Qed.

#[local] Instance ranks_before_trans : Transitive Qdrant.ranks_before.
Proof.
  intros a b c Hab Hbc. unfold Qdrant.ranks_before in *. eapply Qle_trans; eauto.
Qed.

Lemma StronglySorted_take {A} (R : relation A) n l :
  StronglySorted R l -> StronglySorted R (take n l).
Proof.
  intros Hs. revert n. induction Hs as [|x l Hs IH Hx]; intros [|n]; simpl;
    try constructor; auto.
  apply Forall_take. exact Hx.
Qed.

Lemma top_sorted env col q limit :
  StronglySorted Qdrant.ranks_before (Qdrant.top env col q limit).
Proof.
  unfold Qdrant.top. apply StronglySorted_take.
  apply StronglySorted_merge_sort; apply _.
Qed.

Lemma top_length env col q limit :
  length (Qdrant.top env col q limit) = Nat.min (Z.to_nat limit) (size (points col)).
Proof.
  unfold Qdrant.top. rewrite length_take, merge_sort_Permutation.
  rewrite !length_fmap, length_map_to_list. reflexivity.
Qed.

Lemma top_empty env col q limit :
  points col = ∅ -> Qdrant.top env col q limit = [].
Proof.
  intros H. unfold Qdrant.top. rewrite H, map_to_list_empty. simpl.
  apply take_nil.
Qed.

Lemma top_stored env col q limit h :
  h ∈ Qdrant.top env col q limit ->
  exists k p, points col !! k = Some p
              /\ h = Qdrant.score_point env (vp_distance (vectors_config col)) q p.
Proof.
  unfold Qdrant.top. intros H.
  apply elem_of_take in H as (i & H & _).
  apply list_elem_of_lookup_2 in H.
  rewrite merge_sort_Permutation in H.
  apply list_elem_of_fmap in H as (p & -> & H).
  apply list_elem_of_fmap in H as ([k p'] & -> & H).
  apply elem_of_map_to_list in H. eauto.
Qed.

(** ** The search endpoint *)

Lemma search_ok env w c v limit col :
  env_qdrant_fault env (OpSearch c) = None ->
  collections w !! c = Some col ->
  Qdrant.dim v = vp_size (vectors_config col) ->
  1 <= limit ->
  Qdrant.search env c v limit w = (w, Return (Qdrant.top env col v limit)).
Proof.
  intros Hf Hc Hd Hl. unfold Qdrant.search, Qdrant.fault. run.
  rewrite Hf. simpl. rewrite Hc.
  replace (Qdrant.dim v =? vp_size (vectors_config col)) with true by lia.
  replace (limit <? 1) with false by lia. reflexivity.
Qed.

(** C6: a search that the embedding model and the store serve (the text
    is encoded, the store answers for an existing collection of the
    vector's dimension, the limit is at least one) is answered with
    status 200 and the body rankedResults, the list of id and score of the
    hits: in descending order of score, at most [limit] of them, each the
    scoring of a stored point, and none when the collection is empty.  A
    request without a limit asks for 10. *)
Theorem find_matches_ranked
    (env : Env) (w : World) (request : MatchRequest.t) (v : list Q) (col : Collection) :
  env_encode env (MatchRequest.textContent request) = Return v ->
  env_qdrant_fault env (OpSearch (MatchRequest.collection request)) = None ->
  collections w !! MatchRequest.collection request = Some col ->
  Qdrant.dim v = vp_size (vectors_config col) ->
  1 <= MatchRequest.limit request ->
  exists hits,
    main.serve (main.find_matches env request) w = (w, ok_response (ranked hits))
    /\ StronglySorted (fun a b => (score b <= score a)%Q) hits
    /\ Z.of_nat (length hits) <= MatchRequest.limit request
    /\ (forall h, h ∈ hits ->
          exists k p, points col !! k = Some p
                      /\ hit_id h = point_id p
                      /\ score h = env_similarity env (vp_distance (vectors_config col))
                                     v (vector p))
    /\ (points col = ∅ -> hits = [])
    /\ (forall c t, MatchRequest.limit (MatchRequest.parse c t None) = 10).
Proof.
  intros He Hf Hc Hd Hl.
  exists (Qdrant.top env col v (MatchRequest.limit request)).
  split; [|split; [|split; [|split; [|split]]]].
  - unfold main.serve, main.find_matches, main.find_matches_body.
    unfold try_except, bind at 1, lift. rewrite He.
    unfold bind. rewrite (search_ok env w _ v _ col Hf Hc Hd Hl). reflexivity.
  - apply top_sorted.
  - rewrite top_length. lia.
  - intros h Hh. apply top_stored in Hh as (k & p & Hp & ->). eauto.
  - apply top_empty.
  - reflexivity.
Qed.

Lemma find_matches_ranked_witness :
  exists hits,
    main.serve (main.find_matches Demo.env Demo.go_search) Demo.seeded
    = (Demo.seeded, ok_response (ranked hits))
    /\ StronglySorted (fun a b => (score b <= score a)%Q) hits
    /\ Z.of_nat (length hits) <= 2
    /\ (forall h, h ∈ hits ->
          exists k p, points Demo.jobs !! k = Some p
                      /\ hit_id h = point_id p
                      /\ score h = env_similarity Demo.env COSINE
                                     (Demo.unit_vector (12 # 1)) (vector p))
    /\ (points Demo.jobs = ∅ -> hits = [])
    /\ (forall c t, MatchRequest.limit (MatchRequest.parse c t None) = 10).
Proof.
  apply (find_matches_ranked Demo.env Demo.seeded Demo.go_search
           (Demo.unit_vector (12 # 1)) Demo.jobs).
  - reflexivity.
  - reflexivity.
  - vm_compute. reflexivity.
  - vm_compute. reflexivity.
  - simpl. lia.
Defined.

Example go_search_ranking :
  hit_id <$> Qdrant.top Demo.env Demo.jobs (Demo.unit_vector (12 # 1)) 2
  = [tasks.point_id_of "job_102"; tasks.point_id_of "job_103"].
Proof. vm_compute. reflexivity. Qed.

Example search_in_empty_collection :
  snd (main.serve (main.find_matches Demo.env Demo.go_search) Demo.started)
  = ok_response (ranked []).
Proof. vm_compute. reflexivity. Qed.

(** Any exception inside the [try] of the search endpoint becomes the
    same HTTPException. *)
Lemma find_matches_Raise env request w w' e :
  main.find_matches_body env request w = (w', Raise e) ->
  main.serve (main.find_matches env request) w = (w', search_error_response).
Proof.
  intros H. unfold main.serve, main.find_matches, try_except. rewrite H. reflexivity.
Qed.

Lemma search_world env c v limit w : fst (Qdrant.search env c v limit w) = w.
Proof.
  unfold Qdrant.search, Qdrant.fault. run.
  repeat (next_case; simpl; try reflexivity).
Qed.

(** C7: when the embedding model raises, or the store raises during the
    search, the endpoint answers with status 500 and the fixed body whose
    detail is "Internal server error during search."; the answer is the
    same for every exception, so nothing of the exception reaches the
    caller. *)
Theorem find_matches_failure_is_generic
    (env : Env) (w : World) (request : MatchRequest.t) :
  (exists e, env_encode env (MatchRequest.textContent request) = Raise e)
  \/ (exists v e,
        env_encode env (MatchRequest.textContent request) = Return v
        /\ snd (Qdrant.search env (MatchRequest.collection request) v
                  (MatchRequest.limit request) w) = Raise e) ->
  main.serve (main.find_matches env request) w = (w, search_error_response).
Proof.
  intros [[e He] | (v & e & He & Hs)].
  - apply find_matches_Raise with (e := e).
    unfold main.find_matches_body, bind at 1, lift. rewrite He. reflexivity.
  - apply find_matches_Raise with (e := e).
    unfold main.find_matches_body, bind at 1, lift. rewrite He.
    pose proof (search_world env (MatchRequest.collection request) v
                  (MatchRequest.limit request) w) as Hw.
    unfold bind.
    destruct (Qdrant.search env _ v _ w) as [w1 o]. simpl in Hs, Hw. subst. reflexivity.
Qed.

Lemma find_matches_failure_is_generic_witness :
  main.serve (main.find_matches Demo.env Demo.empty_search) Demo.seeded
  = (Demo.seeded, search_error_response).
Proof.
  apply (find_matches_failure_is_generic Demo.env Demo.seeded Demo.empty_search).
  left. eexists. reflexivity.
Defined.

Example store_failure_is_generic :
  snd (main.serve (main.find_matches Demo.env Demo.offline_search) Demo.seeded)
  = search_error_response.
Proof. vm_compute. reflexivity. Qed.

(** Whenever the endpoint answers 200, the body is a ranking of at most
    [limit] hits. *)
Lemma find_matches_200_ranked env request w body :
  snd (main.serve (main.find_matches env request) w) = ok_response body ->
  exists hits,
    body = ranked hits
    /\ StronglySorted Qdrant.ranks_before hits
    /\ Z.of_nat (length hits) <= MatchRequest.limit request.
Proof.
  unfold main.serve, main.find_matches, try_except.
  destruct (main.find_matches_body env request w) as [w1 [b|e]] eqn:Hb; simpl;
    [|discriminate].
  intros [= <-]. unfold main.find_matches_body in Hb.
  apply bind_Return_inv in Hb as (v & w2 & _ & Hb).
  apply bind_Return_inv in Hb as (hits & w3 & Hs & Hb).
  unfold ret in Hb. injection Hb as _ <-. exists hits. split; [reflexivity|].
  revert Hs. unfold Qdrant.search, Qdrant.fault. run.
  repeat (next_case; simpl; try discriminate). intros [= _ <-].
  split; [apply top_sorted|]. rewrite top_length. lia.
Qed.

(** The search endpoint has two answers only. *)
Lemma find_matches_answers env request w :
  snd (main.serve (main.find_matches env request) w) = search_error_response
  \/ exists hits, snd (main.serve (main.find_matches env request) w) = ok_response (ranked hits).
Proof.
  unfold main.serve, main.find_matches, try_except.
  destruct (main.find_matches_body env request w) as [w1 [body|e]] eqn:Hb; simpl; auto.
  right. unfold main.find_matches_body in Hb.
  apply bind_Return_inv in Hb as (v & w2 & _ & Hb).
  apply bind_Return_inv in Hb as (hits & w3 & _ & Hb).
  unfold ret in Hb. injection Hb as _ <-. eauto.
Qed.

(** ** The asynchronous endpoints *)

Lemma delay_ok env name args w :
  env_broker_fault env name = None ->
  celery.delay env name args w
  = (enqueued {| task_id := env_uuid4 env (issued w); task_name := name;
                 arguments := args |} w,
     Return (env_uuid4 env (issued w))).
Proof. intros Hf. unfold celery.delay. rewrite Hf. reflexivity. Qed.

Lemma poll_enqueued inv w tid : celery.poll (enqueued inv w) tid = celery.poll w tid.
Proof. reflexivity. Qed.

(** C9: when the broker takes the message, the resume endpoint answers
    200 with the new task id and status "processing", and the sync
    endpoint answers 200 with the new task id and status "syncing".
    Each appends exactly its invocation to the queue and touches nothing
    else: no handler runs, no call goes out, the store and every task
    record are as before, so the answer is the same whatever the task will
    do later. *)
Theorem async_endpoints_accept
    (env : Env) (w : World) (resume : ResumeParseRequest.t) (sync : SyncRequest.t) :
  env_broker_fault env "app.tasks.parse_resume_task" = None ->
  env_broker_fault env "app.tasks.create_embedding_task" = None ->
  let tid := env_uuid4 env (issued w) in
  let parse := parse_invocation tid (ResumeParseRequest.resumeUrl resume) in
  let embed := embedding_invocation tid (SyncRequest.collection sync)
                 (SyncRequest.documentId sync) (SyncRequest.textContent sync) in
  main.serve (main.submit_resume_parsing env resume) w
  = (enqueued parse w, ok_response (accepted tid "processing"))
  /\ main.serve (main.sync_document env sync) w
     = (enqueued embed w, ok_response (accepted tid "syncing"))
  /\ (forall inv,
        collections (enqueued inv w) = collections w
        /\ calls (enqueued inv w) = calls w
        /\ results (enqueued inv w) = results w
        /\ queue (enqueued inv w) = (queue w ++ [inv])%list
        /\ forall t, celery.poll (enqueued inv w) t = celery.poll w t).
Proof.
  intros Hp He tid parse embed. split; [|split].
  - unfold main.serve, main.submit_resume_parsing.
    erewrite bind_Return by (apply delay_ok; exact Hp). reflexivity.
  - unfold main.serve, main.sync_document.
    erewrite bind_Return by (apply delay_ok; exact He). reflexivity.
  - intros inv. repeat split.
Qed.

Lemma async_endpoints_accept_witness :
  let w := Demo.started in
  let parse := parse_invocation "task-0" Demo.resume_url in
  let embed := embedding_invocation "task-0" "jobs" "job_101"
                 "Senior Backend Engineer specializing in Golang" in
  main.serve (main.submit_resume_parsing Demo.env
                {| ResumeParseRequest.resumeUrl := Demo.resume_url |}) w
  = (enqueued parse w, ok_response (accepted "task-0" "processing"))
  /\ main.serve (main.sync_document Demo.env Demo.job_101) w
     = (enqueued embed w, ok_response (accepted "task-0" "syncing"))
  /\ (forall inv,
        collections (enqueued inv w) = collections w
        /\ calls (enqueued inv w) = calls w
        /\ results (enqueued inv w) = results w
        /\ queue (enqueued inv w) = (queue w ++ [inv])%list
        /\ forall t, celery.poll (enqueued inv w) t = celery.poll w t).
Proof.
  apply (async_endpoints_accept Demo.env Demo.started
           {| ResumeParseRequest.resumeUrl := Demo.resume_url |} Demo.job_101);
    reflexivity.
Defined.

(** The endpoints do not catch a failure of the broker: nothing is
    published and the exception leaves the route. *)
Lemma delay_unreachable env name args w e :
  env_broker_fault env name = Some e ->
  celery.delay env name args w = (w, Raise e).
Proof. intros Hf. unfold celery.delay. rewrite Hf. reflexivity. Qed.

Example health : main.serve main.read_health Demo.fresh
                 = (Demo.fresh, ok_response (VDict [("status", VStr "ok")])).
Proof. reflexivity. Qed.

(** ** The seeding script *)

Example JOBS_DATA_texts :
  (fun job => match subscript_str job "textContent" with
              | Return (VStr t) => String.length t
              | _ => O
              end) <$> seed_script.JOBS_DATA
  = [316; 315; 321; 307; 317; 294; 308; 330; 349; 314]%nat.
Proof. vm_compute. reflexivity. Qed.







Example seed_demo :
  snd (seed_script.seed_database Demo.env Demo.fresh) = Return (10, 0).
Proof. vm_compute. reflexivity. Qed.

(** ** What the handlers leave alone *)

Lemma fetch_resume_text_frame env url w :
  only_calls_differ w (fst (tasks.fetch_resume_text env url w)).
Proof.
  unfold tasks.fetch_resume_text, only_calls_differ. run.
  repeat (next_case; simpl; auto).
Qed.

Lemma raw_llm_output_frame env text w :
  only_calls_differ w (fst (tasks.raw_llm_output env text w)).
Proof.
  unfold tasks.raw_llm_output, only_calls_differ. run.
  repeat (next_case; simpl; auto).
Qed.

Lemma only_calls_differ_trans w1 w2 w3 :
  only_calls_differ w1 w2 -> only_calls_differ w2 w3 -> only_calls_differ w1 w3.
Proof.
  unfold only_calls_differ. intros (? & ? & ? & ? & ?) (? & ? & ? & ? & ?).
  repeat split; congruence.
Qed.

Lemma only_calls_differ_refl w : only_calls_differ w w.
Proof. repeat split. Qed.

Lemma parse_resume_body_frame env url w :
  only_calls_differ w (fst (tasks.parse_resume_body env url w)).
Proof.
  unfold tasks.parse_resume_body, bind.
  pose proof (fetch_resume_text_frame env url w) as Hf.
  destruct (tasks.fetch_resume_text env url w) as [w1 [text|e]]; simpl in *; auto.
  pose proof (raw_llm_output_frame env text w1) as Hr.
  destruct (tasks.raw_llm_output env text w1) as [w2 [raw|e]]; simpl in *.
  - rewrite try_except_ret_world, extract_function_call_world.
    eapply only_calls_differ_trans; eauto.
  - eapply only_calls_differ_trans; eauto.
Qed.

(** X2: the resume handler changes nothing but the list of HTTP calls
    issued: the vector store, the unapplied upserts, the broker queue, the
    task records and the id counter are after the run what they were
    before, whatever the services answer. *)
Theorem parse_resume_task_frame (env : Env) (resume_url : string) (w : World) :
  only_calls_differ w (fst (tasks.parse_resume_task env resume_url w)).
Proof.
  unfold tasks.parse_resume_task, try_except.
  pose proof (parse_resume_body_frame env resume_url w) as Hb.
  destruct (tasks.parse_resume_body env resume_url w) as [w1 [v|e]]; exact Hb.
Qed.

Lemma find_matches_body_world env request w :
  fst (main.find_matches_body env request w) = w.
Proof.
  unfold main.find_matches_body, bind at 1, lift.
  destruct (env_encode env _) as [v|e]; [|reflexivity].
  unfold bind.
  pose proof (search_world env (MatchRequest.collection request) v
                (MatchRequest.limit request) w) as Hw.
  destruct (Qdrant.search env _ v _ w) as [w1 [hits|e]]; simpl in *; auto.
Qed.

(** X3: the search endpoint is read-only: for every request and every
    answer of the model and the store, also when it answers 500, the world
    after the request is the world before it. *)
Theorem find_matches_read_only (env : Env) (request : MatchRequest.t) (w : World) :
  fst (main.find_matches env request w) = w
  /\ fst (main.serve (main.find_matches env request) w) = w.
Proof.
  pose proof (find_matches_body_world env request w) as Hb.
  assert (H : fst (main.find_matches env request w) = w).
  { unfold main.find_matches, try_except.
    destruct (main.find_matches_body env request w) as [w1 [v|e]]; exact Hb. }
  split; [exact H|].
  unfold main.serve. destruct (main.find_matches env request w); exact H.
Qed.

(** X4: the embedding handler touches one place only.  Whatever happens,
    the HTTP calls, unapplied upserts, queue, task records and id counter
    are unchanged, every other collection is unchanged, and in the named
    collection the configuration and every point but the one under the
    derived id are unchanged.  When the handler returns an error dict the
    whole world is unchanged. *)
Theorem create_embedding_task_frame
    (env : Env) (c d t : string) (w : World) :
  let w' := fst (tasks.create_embedding_task env c d t w) in
  calls w' = calls w /\ unapplied w' = unapplied w /\ queue w' = queue w
  /\ results w' = results w /\ issued w' = issued w
  /\ (forall c', c' <> c -> collections w' !! c' = collections w !! c')
  /\ (forall col', collections w' !! c = Some col' ->
        exists col, collections w !! c = Some col
                    /\ vectors_config col' = vectors_config col
                    /\ forall k, k <> tasks.point_id_of d ->
                                 points col' !! k = points col !! k)
  /\ (has_key "error" (match snd (tasks.create_embedding_task env c d t w) with
                       | Return v => v
                       | Raise _ => VNone
                       end) -> w' = w).
Proof.
  destruct (create_embedding_task_cases env c d t w)
    as [[e H] | (v & col & _ & _ & Hc & _ & H)]; rewrite H; simpl.
  - repeat split; auto. intros col' Hc'. exists col'. auto.
  - repeat split; auto.
    + intros c' Hne. rewrite lookup_insert_ne by congruence. reflexivity.
    + intros col'. rewrite lookup_insert_eq. intros [= <-].
      exists col. repeat split; auto.
      intros k Hk. simpl. rewrite lookup_insert_ne by congruence. reflexivity.
    + intros [x Hx]. discriminate Hx.
Qed.

(** ** The store under the handlers *)












Lemma store_ok_fresh : store_ok Demo.fresh.
Proof. intros c col k p H. simpl in H. rewrite lookup_empty in H. discriminate. Qed.


(** ** Repeating and reordering syncs *)

Lemma create_embedding_task_ok env c d t w v col :
  env_encode env t = Return v ->
  env_qdrant_fault env (OpUpsert c (tasks.point_id_of d)) = None ->
  collections w !! c = Some col ->
  Qdrant.dim v = vp_size (vectors_config col) ->
  tasks.create_embedding_task env c d t w
  = (set_collections (fun cs => <[c := Qdrant.put_point (tasks.point_of d v) col]> cs) w,
     Return (tasks.success d)).
Proof.
  intros He Hf Hc Hd.
  destruct (create_embedding_task_cases env c d t w)
    as [[e H] | (v' & col' & He' & _ & Hc' & _ & H)].
  - exfalso. revert H.
    unfold tasks.create_embedding_task, tasks.create_embedding_body, Qdrant.upsert,
      Qdrant.fault. run.
    rewrite He. simpl. rewrite Hf. simpl. rewrite Hc. simpl.
    replace (Qdrant.dim v =? vp_size (vectors_config col)) with true by lia. simpl.
    discriminate.
  - rewrite He in He'. injection He' as <-.
    rewrite Hc in Hc'. injection Hc' as <-. exact H.
Qed.

Lemma create_embedding_task_success_inv env c d t w w' :
  tasks.create_embedding_task env c d t w = (w', Return (tasks.success d)) ->
  exists v col,
    env_encode env t = Return v
    /\ env_qdrant_fault env (OpUpsert c (tasks.point_id_of d)) = None
    /\ collections w !! c = Some col
    /\ Qdrant.dim v = vp_size (vectors_config col)
    /\ w' = set_collections
              (fun cs => <[c := Qdrant.put_point (tasks.point_of d v) col]> cs) w.
Proof.
  intros H.
  destruct (create_embedding_task_cases env c d t w)
    as [[e He] | (v & col & Hv & Hf & Hc & Hd & Hrun)].
  - rewrite He in H. exfalso. apply (success_not_error d e). congruence.
  - rewrite Hrun in H. exists v, col. repeat split; auto.
    injection H as <-. reflexivity.
Qed.

Lemma set_collections_ext f g w :
  f (collections w) = g (collections w) -> set_collections f w = set_collections g w.
Proof. unfold set_collections. intros ->. reflexivity. Qed.

Lemma set_collections_set_collections f g w :
  set_collections f (set_collections g w) = set_collections (fun cs => f (g cs)) w.
Proof. reflexivity. Qed.

Lemma put_point_put_point p q col :
  point_id p = point_id q ->
  Qdrant.put_point p (Qdrant.put_point q col) = Qdrant.put_point p col.
Proof.
  intros H. unfold Qdrant.put_point. simpl. rewrite H, insert_insert_eq. reflexivity.
Qed.

Lemma put_point_comm p q col :
  point_id p <> point_id q ->
  Qdrant.put_point p (Qdrant.put_point q col) = Qdrant.put_point q (Qdrant.put_point p col).
Proof.
  intros H. unfold Qdrant.put_point. simpl. f_equal. apply insert_insert_ne. congruence.
Qed.

(** X6: a sync that succeeded can be repeated at no cost: running the
    embedding handler again with the same arguments succeeds again and
    leaves the world exactly as the first run left it. *)
Theorem create_embedding_task_idempotent
    (env : Env) (c d t : string) (w w1 : World) :
  tasks.create_embedding_task env c d t w = (w1, Return (tasks.success d)) ->
  tasks.create_embedding_task env c d t w1 = (w1, Return (tasks.success d)).
Proof.
  intros H.
  apply create_embedding_task_success_inv in H as (v & col & Hv & Hf & Hc & Hd & ->).
  rewrite (create_embedding_task_ok env c d t _ v
             (Qdrant.put_point (tasks.point_of d v) col) Hv Hf);
    [| simpl; apply lookup_insert_eq | exact Hd].
  f_equal. rewrite set_collections_set_collections. apply set_collections_ext.
  rewrite insert_insert_eq, put_point_put_point by reflexivity. reflexivity.
Qed.

Lemma create_embedding_task_idempotent_witness :
  tasks.create_embedding_task Demo.env "jobs" "job_101" "Senior Backend Engineer"
    Demo.synced_once
  = (Demo.synced_once, Return (tasks.success "job_101")).
Proof.
  apply (create_embedding_task_idempotent Demo.env "jobs" "job_101"
           "Senior Backend Engineer" Demo.started Demo.synced_once).
  vm_compute. reflexivity.
Defined.

(** X7: two syncs whose points do not collide (different collections, or
    different derived ids) commute: if they succeed one after the other,
    they succeed in the other order too and the final world is the same.
    The order in which workers pick up such tasks does not matter. *)
Theorem create_embedding_tasks_commute
    (env : Env) (c1 d1 t1 c2 d2 t2 : string) (w w1 w2 : World) :
  c1 <> c2 \/ tasks.point_id_of d1 <> tasks.point_id_of d2 ->
  tasks.create_embedding_task env c1 d1 t1 w = (w1, Return (tasks.success d1)) ->
  tasks.create_embedding_task env c2 d2 t2 w1 = (w2, Return (tasks.success d2)) ->
  exists w1',
    tasks.create_embedding_task env c2 d2 t2 w = (w1', Return (tasks.success d2))
    /\ tasks.create_embedding_task env c1 d1 t1 w1' = (w2, Return (tasks.success d1)).
Proof.
  intros Hne H1 H2.
  apply create_embedding_task_success_inv in H1 as (v1 & col1 & Hv1 & Hf1 & Hc1 & Hd1 & ->).
  apply create_embedding_task_success_inv in H2 as (v2 & col2 & Hv2 & Hf2 & Hc2 & Hd2 & ->).
  simpl in Hc2.
  destruct (decide (c1 = c2)) as [<- | Hc].
  - destruct Hne as [Hne | Hne]; [congruence|].
    rewrite lookup_insert_eq in Hc2. injection Hc2 as <-. simpl in Hd2.
    eexists. split.
    + apply (create_embedding_task_ok env c1 d2 t2 w v2 col1 Hv2 Hf2 Hc1 Hd2).
    + rewrite (create_embedding_task_ok env c1 d1 t1 _ v1
                 (Qdrant.put_point (tasks.point_of d2 v2) col1) Hv1 Hf1);
        [| simpl; apply lookup_insert_eq | exact Hd1].
      f_equal. rewrite !set_collections_set_collections. apply set_collections_ext.
      rewrite !insert_insert_eq. f_equal. apply put_point_comm. simpl. exact Hne.
  - rewrite lookup_insert_ne in Hc2 by exact Hc.
    eexists. split.
    + apply (create_embedding_task_ok env c2 d2 t2 w v2 col2 Hv2 Hf2 Hc2 Hd2).
    + rewrite (create_embedding_task_ok env c1 d1 t1 _ v1 col1 Hv1 Hf1);
        [| simpl; rewrite lookup_insert_ne by congruence; exact Hc1 | exact Hd1].
      f_equal. rewrite !set_collections_set_collections. apply set_collections_ext.
      apply insert_insert_ne. congruence.
Qed.

Lemma create_embedding_tasks_commute_witness :
  exists w1',
    tasks.create_embedding_task Demo.env "jobs" "job_102" "Frontend Developer" Demo.started
    = (w1', Return (tasks.success "job_102"))
    /\ tasks.create_embedding_task Demo.env "jobs" "job_101" "Senior Backend Engineer" w1'
       = (fst (tasks.create_embedding_task Demo.env "jobs" "job_102" "Frontend Developer"
                 Demo.synced_once),
          Return (tasks.success "job_101")).
Proof.
  apply (create_embedding_tasks_commute Demo.env
           "jobs" "job_101" "Senior Backend Engineer"
           "jobs" "job_102" "Frontend Developer"
           Demo.started Demo.synced_once).
  - right. vm_compute. discriminate.
  - vm_compute. reflexivity.
  - vm_compute. reflexivity.
Defined.

(** ** From the endpoints to the store *)

Lemma create_embedding_task_unknown_collection env c d t w :
  collections w !! c = None ->
  exists e, tasks.create_embedding_task env c d t w = (w, Return (tasks.error_dict e)).
Proof.
  intros Hc.
  destruct (create_embedding_task_cases env c d t w)
    as [[e H] | (v & col & _ & _ & Hc' & _ & _)]; [eauto | congruence].
Qed.

Lemma sync_document_ok env request w :
  env_broker_fault env "app.tasks.create_embedding_task" = None ->
  main.serve (main.sync_document env request) w
  = (enqueued (embedding_invocation (env_uuid4 env (issued w))
                 (SyncRequest.collection request) (SyncRequest.documentId request)
                 (SyncRequest.textContent request)) w,
     ok_response (accepted (env_uuid4 env (issued w)) "syncing")).
Proof.
  intros Hb. unfold main.serve, main.sync_document.
  erewrite bind_Return by (apply delay_ok; exact Hb). reflexivity.
Qed.

(** X8: a sync into a collection the store does not hold is lost without
    a trace for the caller.  With an idle queue and a reachable broker the
    endpoint answers 200 with status "syncing"; the worker then records
    the task as SUCCESS, its result being an error dict, and the store is
    what it was before the request. *)
Theorem sync_to_unknown_collection_is_dropped
    (env : Env) (w : World) (request : SyncRequest.t) :
  env_broker_fault env "app.tasks.create_embedding_task" = None ->
  queue w = [] ->
  collections w !! SyncRequest.collection request = None ->
  let tid := env_uuid4 env (issued w) in
  let w1 := fst (main.serve (main.sync_document env request) w) in
  let w2 := celery.worker_step env w1 in
  snd (main.serve (main.sync_document env request) w) = ok_response (accepted tid "syncing")
  /\ (exists e, celery.poll w2 tid = success_record (tasks.error_dict e))
  /\ collections w2 = collections w
  /\ queue w2 = [].
Proof.
  intros Hb Hq Hc tid w1 w2. subst w1 w2 tid.
  rewrite (sync_document_ok env request w Hb). simpl fst. simpl snd.
  set (tid := env_uuid4 env (issued w)).
  set (inv := embedding_invocation tid _ _ _).
  assert (Hq1 : queue (enqueued inv w) = inv :: []) by (simpl; rewrite Hq; reflexivity).
  destruct (create_embedding_task_unknown_collection env
              (SyncRequest.collection request) (SyncRequest.documentId request)
              (SyncRequest.textContent request) (claimed tid [] (enqueued inv w)) Hc)
    as [e He].
  rewrite (worker_step_embedding env _ tid _ _ _ [] _ _ Hq1 He).
  rewrite poll_record. split; [reflexivity|]. split; [eauto|]. split; reflexivity.
Qed.

Lemma sync_to_unknown_collection_is_dropped_witness :
  let request := {| SyncRequest.collection := "candidates";
                    SyncRequest.documentId := "cand_7";
                    SyncRequest.textContent := "Data engineer" |} in
  let w1 := fst (main.serve (main.sync_document Demo.env request) Demo.started) in
  let w2 := celery.worker_step Demo.env w1 in
  snd (main.serve (main.sync_document Demo.env request) Demo.started)
  = ok_response (accepted "task-0" "syncing")
  /\ (exists e, celery.poll w2 "task-0" = success_record (tasks.error_dict e))
  /\ collections w2 = collections Demo.started
  /\ queue w2 = [].
Proof.
  apply (sync_to_unknown_collection_is_dropped Demo.env Demo.started
           {| SyncRequest.collection := "candidates"; SyncRequest.documentId := "cand_7";
              SyncRequest.textContent := "Data engineer" |});
    vm_compute; reflexivity.
Defined.

Lemma top_all env col q limit :
  Z.of_nat (size (points col)) <= limit ->
  forall k p, points col !! k = Some p ->
    Qdrant.score_point env (vp_distance (vectors_config col)) q p
    ∈ Qdrant.top env col q limit.
Proof.
  intros Hl k p Hp. unfold Qdrant.top.
  rewrite take_ge.
  - rewrite merge_sort_Permutation. apply list_elem_of_fmap_2.
    apply list_elem_of_fmap. exists (k, p). split; [reflexivity|].
    apply elem_of_map_to_list. exact Hp.
  - rewrite merge_sort_Permutation, !length_fmap, length_map_to_list. lia.
Qed.

(** X9: a synced document is found again, under its derived id.  After a
    successful sync of document [d] with text [t] into a collection, a
    search in that collection which the model and the store serve, with a
    limit of at least the number of stored points, is answered 200 with a
    ranking that holds a hit whose id is the UUID-v5 of [d] (not [d]
    itself) and whose score is the similarity of the two encodings. *)
Theorem synced_document_is_found
    (env : Env) (w w1 : World) (c d t : string) (request : MatchRequest.t)
    (qv : list Q) (col1 : Collection) :
  tasks.create_embedding_task env c d t w = (w1, Return (tasks.success d)) ->
  MatchRequest.collection request = c ->
  env_encode env (MatchRequest.textContent request) = Return qv ->
  env_qdrant_fault env (OpSearch c) = None ->
  collections w1 !! c = Some col1 ->
  Qdrant.dim qv = vp_size (vectors_config col1) ->
  Z.of_nat (size (points col1)) <= MatchRequest.limit request ->
  exists hits tv,
    main.serve (main.find_matches env request) w1 = (w1, ok_response (ranked hits))
    /\ env_encode env t = Return tv
    /\ {| hit_id := uuid.str (uuid.uuid5 uuid.NAMESPACE_DNS d);
          score := env_similarity env (vp_distance (vectors_config col1)) qv tv |} ∈ hits.
Proof.
  intros Hrun <- Hq Hf Hc Hd Hl.
  apply create_embedding_task_success_inv in Hrun as (tv & col & Htv & _ & _ & _ & ->).
  simpl in Hc. rewrite lookup_insert_eq in Hc. injection Hc as <-.
  set (col1 := Qdrant.put_point (tasks.point_of d tv) col) in *.
  assert (Hp : points col1 !! tasks.point_id_of d = Some (tasks.point_of d tv))
    by (simpl; apply lookup_insert_eq).
  assert (Hl1 : 1 <= MatchRequest.limit request).
  { assert (size (points col1) <> 0%nat); [|lia].
    intros H0. apply map_size_empty_iff in H0. rewrite H0, lookup_empty in Hp.
    discriminate. }
  exists (Qdrant.top env col1 qv (MatchRequest.limit request)), tv.
  split; [|split; [exact Htv|]].
  - unfold main.serve, main.find_matches, main.find_matches_body.
    unfold try_except, bind at 1, lift. rewrite Hq. unfold bind.
    rewrite (search_ok env _ _ qv _ col1 Hf); [reflexivity | | exact Hd | exact Hl1].
    simpl. apply lookup_insert_eq.
  - apply (top_all env col1 qv _ Hl _ _ Hp).
Qed.

Lemma synced_document_is_found_witness :
  exists hits tv,
    main.serve (main.find_matches Demo.env Demo.go_search) Demo.synced_once
    = (Demo.synced_once, ok_response (ranked hits))
    /\ env_encode Demo.env "Senior Backend Engineer" = Return tv
    /\ {| hit_id := uuid.str (uuid.uuid5 uuid.NAMESPACE_DNS "job_101");
          score := env_similarity Demo.env
                     (vp_distance (vectors_config
                        (Qdrant.put_point (Demo.job "job_101" (23 # 1))
                           {| vectors_config := tasks.collection_params; points := ∅ |})))
                     (Demo.unit_vector (12 # 1)) tv |} ∈ hits.
Proof.
  apply (synced_document_is_found Demo.env Demo.started Demo.synced_once
           "jobs" "job_101" "Senior Backend Engineer" Demo.go_search
           (Demo.unit_vector (12 # 1))
           (Qdrant.put_point (Demo.job "job_101" (23 # 1))
              {| vectors_config := tasks.collection_params; points := ∅ |})).
  - vm_compute. reflexivity.
  - reflexivity.
  - reflexivity.
  - reflexivity.
  - vm_compute. reflexivity.
  - vm_compute. reflexivity.
  - vm_compute. discriminate.
Defined.

(** ** One step of the worker *)

Lemma handler_frame env name h args w :
  celery.lookup_task name (celery.registry env) = Some h ->
  let w' := fst (h args w) in
  queue w' = queue w /\ results w' = results w /\ issued w' = issued w.
Proof.
  unfold celery.registry, celery.lookup_task.
  destruct (String.eqb name "app.tasks.parse_resume_task").
  { intros [= <-]. destruct args as [|url [|? ?]]; try (repeat split; reflexivity).
    unfold tasks.parse_resume_task. rewrite try_except_ret_world.
    destruct (parse_resume_body_frame env url w) as (_ & _ & ? & ? & ?). auto. }
  destruct (String.eqb name "app.tasks.create_embedding_task"); [|discriminate].
  intros [= <-]. destruct args as [|c [|d [|t [|? ?]]]]; try (repeat split; reflexivity).
  destruct (create_embedding_task_cases env c d t w)
    as [[e H] | (v & col & _ & _ & _ & _ & H)]; rewrite H; repeat split; reflexivity.
Qed.

(** X10: a step of the worker on a non-empty queue removes exactly the
    oldest message, brings its task to a terminal state (FAILURE with
    "unknown task" when the name is not registered, and then without
    touching the store or issuing a call), and leaves the record of every
    other task and the id counter as they were: neither handler ever
    enqueues, dequeues or writes a record. *)
Theorem worker_step_consumes_one
    (env : Env) (w : World) (inv : Invocation) (rest : list Invocation) :
  queue w = inv :: rest ->
  let w' := celery.worker_step env w in
  queue w' = rest
  /\ issued w' = issued w
  /\ (state (celery.poll w' (task_id inv)) = SUCCESS
      \/ state (celery.poll w' (task_id inv)) = FAILURE)
  /\ (forall tid, tid <> task_id inv -> results w' !! tid = results w !! tid)
  /\ (celery.lookup_task (task_name inv) (celery.registry env) = None ->
      celery.poll w' (task_id inv)
      = {| state := FAILURE; result := None; error := Some "unknown task" |}
      /\ collections w' = collections w /\ calls w' = calls w).
Proof.
  intros Hq w'. subst w'. unfold celery.worker_step. rewrite Hq.
  destruct (celery.lookup_task (task_name inv) (celery.registry env)) as [h|] eqn:Hl.
  - set (w2 := celery.record _ _ _).
    destruct (handler_frame env _ h (arguments inv) w2 Hl) as (Hq2 & Hr2 & Hi2).
    destruct (h (arguments inv) w2) as [w3 [v|e]]; simpl in Hq2, Hr2, Hi2;
      rewrite poll_record; simpl; rewrite Hq2, Hr2, Hi2; simpl;
      (split; [reflexivity|]); (split; [reflexivity|]); (split; [auto|]);
      (split; [|discriminate]);
      intros tid Hne; rewrite !lookup_insert_ne by congruence; reflexivity.
  - rewrite poll_record. simpl.
    split; [reflexivity|]. split; [reflexivity|]. split; [auto|].
    split; [|auto].
    intros tid Hne. rewrite lookup_insert_ne by congruence. reflexivity.
Qed.

Lemma worker_step_consumes_one_witness :
  let inv := {| task_id := "t-9"; task_name := "app.tasks.send_mail"; arguments := [] |} in
  let w := set_queue (fun _ => [inv; parse_invocation "t-10" Demo.resume_url]) Demo.started in
  let w' := celery.worker_step Demo.env w in
  queue w' = [parse_invocation "t-10" Demo.resume_url]
  /\ issued w' = issued w
  /\ (state (celery.poll w' "t-9") = SUCCESS \/ state (celery.poll w' "t-9") = FAILURE)
  /\ (forall tid, tid <> "t-9" -> results w' !! tid = results w !! tid)
  /\ (celery.lookup_task "app.tasks.send_mail" (celery.registry Demo.env) = None ->
      celery.poll w' "t-9"
      = {| state := FAILURE; result := None; error := Some "unknown task" |}
      /\ collections w' = collections w /\ calls w' = calls w).
Proof.
  apply (worker_step_consumes_one Demo.env
           (set_queue (fun _ => [{| task_id := "t-9"; task_name := "app.tasks.send_mail";
                                    arguments := [] |};
                                 parse_invocation "t-10" Demo.resume_url]) Demo.started)
           {| task_id := "t-9"; task_name := "app.tasks.send_mail"; arguments := [] |}
           [parse_invocation "t-10" Demo.resume_url]).
  reflexivity.
Defined.

(** With nothing in the queue the worker does nothing. *)
Lemma worker_step_idle env w : queue w = [] -> celery.worker_step env w = w.
Proof. intros H. unfold celery.worker_step. rewrite H. reflexivity. Qed.

(** ** The function call is never read *)

Lemma find_from_found sub s : forall i0,
  PyStr.find_from sub s i0 <> -1 ->
  exists n, PyStr.find_from sub s i0 = i0 + Z.of_nat n
            /\ (n <= String.length s)%nat
            /\ String.prefix sub (PyStr.drop n s) = true
            /\ forall j, (j < n)%nat -> String.prefix sub (PyStr.drop j s) = false.
Proof.
  induction s as [|c s IH]; intros i0; rewrite find_from_eq.
  - destruct (String.prefix sub "") eqn:Hp; [|congruence].
    intros _. exists O. split; [lia|]. split; [simpl; lia|]. split; [exact Hp|].
    intros j Hj. lia.
  - destruct (String.prefix sub (String c s)) eqn:Hp.
    + intros _. exists O. split; [lia|]. split; [simpl; lia|]. split; [exact Hp|].
      intros j Hj. lia.
    + intros Hne. destruct (IH (i0 + 1) Hne) as (n & Hn & Hle & Hpre & Hmin).
      exists (S n). split; [lia|]. split; [simpl; lia|]. split; [exact Hpre|].
      intros [|j] Hj; [exact Hp | apply Hmin; lia].
Qed.

Lemma clamp_in_range s n :
  (n <= String.length s)%nat -> PyStr.clamp s (Z.of_nat n) = n.
Proof.
  intros H. unfold PyStr.clamp, PyStr.len.
  destruct (Z.of_nat n <? 0) eqn:E; lia.
Qed.

Lemma prefix_head a s1 t :
  String.prefix (String a s1) t = true -> exists rest, t = String a rest.
Proof.
  destruct t as [|b t]; simpl; [discriminate|].
  destruct (Ascii.ascii_dec a b) as [<- | ?]; [eauto | discriminate].
Qed.

Lemma name_marker_head : exists tail, tasks.name_marker = String open_brace tail.
Proof. eexists. vm_compute. reflexivity. Qed.



Lemma slice_at_marker s :
  PyStr.find s tasks.name_marker <> -1 ->
  exists rest,
    PyStr.slice_from s (PyStr.find s tasks.name_marker) = String open_brace rest.
Proof.
  intros Hne. unfold PyStr.find in *.
  destruct (find_from_found tasks.name_marker s 0 Hne) as (n & Hn & Hle & Hpre & _).
  assert (Hn' : PyStr.find_from tasks.name_marker s 0 = Z.of_nat n) by lia.
  rewrite Hn'.
  destruct name_marker_head as [tail Hm]. rewrite Hm in Hpre.
  destruct (prefix_head _ _ _ Hpre) as [rest Hrest]. exists rest.
  unfold PyStr.slice_from. rewrite clamp_in_range by exact Hle. exact Hrest.
Qed.

Lemma extract_function_call_objects env raw w w' v :
  loads_objects env ->
  tasks.extract_function_call env raw w = (w', Return v) -> v = tasks.not_found.
Proof.
  intros Hobj. unfold tasks.extract_function_call, tasks.find_in, tasks.tail_of.
  destruct raw as [| | | |s| |]; run; try discriminate.
  destruct (PyStr.find s tasks.name_marker =? -1) eqn:E; simpl.
  - intros [= _ <-]. reflexivity.
  - destruct (slice_at_marker s) as (rest & Hrest); [lia|].
    rewrite Hrest.
    destruct (env_json_loads env (String open_brace rest)) as [j|e] eqn:Hj;
      [|discriminate].
    apply Hobj in Hj. destruct j; try discriminate Hj. simpl. discriminate.
Qed.

(** X12: the resume task cannot succeed.  Whenever the decoder maps a
    text that starts with an opening brace to an object (as JSON decoding
    does), the handler returns a dict with the key "error" for every URL
    and every answer of the other services: the slice it decodes starts at
    a brace, and the object it gets is then subscripted with [0]. *)
Theorem parse_resume_task_never_succeeds (env : Env) (resume_url : string) (w : World) :
  loads_objects env ->
  exists w' v,
    tasks.parse_resume_task env resume_url w = (w', Return v) /\ has_key "error" v.
Proof.
  intros Hobj.
  unfold tasks.parse_resume_task, try_except.
  destruct (tasks.parse_resume_body env resume_url w) as [w1 [v|e]] eqn:Hb.
  - exists w1, v. split; [reflexivity|].
    unfold tasks.parse_resume_body in Hb.
    apply bind_Return_inv in Hb as (text & w2 & _ & Hb).
    apply bind_Return_inv in Hb as (raw & w3 & _ & Hb).
    unfold try_except in Hb.
    destruct (tasks.extract_function_call env raw w3) as [w4 [a|e]] eqn:Hx.
    + injection Hb as <- <-.
      rewrite (extract_function_call_objects env raw w3 w4 a Hobj Hx).
      apply has_error_not_found.
    + injection Hb as <- <-. apply has_error_failed_to_parse.
  - exists w1, (tasks.error_dict e). split; [reflexivity|]. apply has_error_error_dict.
Qed.

Lemma parse_resume_task_never_succeeds_witness :
  exists w' v,
    tasks.parse_resume_task Demo2.env Demo.resume_url Demo.started = (w', Return v)
    /\ has_key "error" v.
Proof.
  apply (parse_resume_task_never_succeeds Demo2.env Demo.resume_url Demo.started).
  intros rest v H. simpl in H. injection H as <-. reflexivity.
Defined.

Example tool_call_is_not_read :
  snd (tasks.parse_resume_task Demo2.env Demo.resume_url Demo.started)
  = Return (tasks.failed_to_parse (VStr Demo2.tool_call_output)).
Proof. vm_compute. reflexivity. Qed.

(** ** The inference call comes last *)

Lemma one_call_is_not_two (cs : list NetCall) (a b : NetCall) :
  (cs ++ [a])%list <> ((cs ++ [a]) ++ [b])%list.
Proof.
  intros H. apply (f_equal length) in H. rewrite !length_app in H. simpl in H. lia.
Qed.

(** X13: the inference endpoint is called only for a resume that was
    fetched and read.  If the resume handler issued the POST, then the
    download returned a response with a good status, the PDF library
    opened its content, every page gave its text, and the tokenizer built
    a prompt from the first 4000 characters of the joined text; a failed
    download or an unreadable document never costs an inference call. *)
Theorem inference_call_requires_resume (env : Env) (resume_url : string) (w : World) :
  calls (fst (tasks.parse_resume_task env resume_url w))
  = (calls w ++ [GET resume_url None; POST tasks.HF_API_URL (Some 90)])%list ->
  exists response pdf_document pages prompt,
    env_get env resume_url = Return response
    /\ good_status response = true
    /\ env_fitz_open env (content response) = Return pdf_document
    /\ tasks.for_each (fun page => page) pdf_document = Return pages
    /\ env_apply_chat_template env (resume_messages (PyStr.join pages)) = Return prompt.
Proof.
  unfold tasks.parse_resume_task. rewrite try_except_ret_world.
  unfold tasks.parse_resume_body, tasks.fetch_resume_text, tasks.raw_llm_output,
    resume_messages, good_status. run.
  change (calls w ++ [GET resume_url None; POST tasks.HF_API_URL (Some 90)])%list
    with (calls w ++ ([GET resume_url None] ++ [POST tasks.HF_API_URL (Some 90)]))%list.
  rewrite app_assoc.
  destruct (env_get env resume_url) as [response|e] eqn:Hg; simpl;
    [|intros H; exfalso; eapply one_call_is_not_two, H].
  destruct ((400 <=? status_code response) && (status_code response <? 600)) eqn:Hs;
    simpl; [intros H; exfalso; eapply one_call_is_not_two, H|].
  destruct (env_fitz_open env (content response)) as [pdf|e] eqn:Ho; simpl;
    [|intros H; exfalso; eapply one_call_is_not_two, H].
  destruct (tasks.for_each (fun page => page) pdf) as [pages|e] eqn:Hpg; simpl;
    [|intros H; exfalso; eapply one_call_is_not_two, H].
  destruct (env_apply_chat_template env _) as [prompt|e] eqn:Hp; simpl;
    [|intros H; exfalso; eapply one_call_is_not_two, H].
  intros _. exists response, pdf, pages, prompt.
  rewrite Hs. repeat split; assumption.
Qed.

Lemma inference_call_requires_resume_witness :
  exists response pdf_document pages prompt,
    env_get Demo.env Demo.resume_url = Return response
    /\ good_status response = true
    /\ env_fitz_open Demo.env (content response) = Return pdf_document
    /\ tasks.for_each (fun page => page) pdf_document = Return pages
    /\ env_apply_chat_template Demo.env (resume_messages (PyStr.join pages)) = Return prompt.
Proof.
  apply (inference_call_requires_resume Demo.env Demo.resume_url Demo.started).
  vm_compute. reflexivity.
Defined.

(** The text that goes into the prompt is a prefix of the resume text of
    at most 4000 characters. *)
Lemma slice_to_length s n :
  0 <= n -> PyStr.len (PyStr.slice_to s n) = Z.min (PyStr.len s) n.
Proof.
  intros Hn. unfold PyStr.slice_to, PyStr.clamp, PyStr.len.
  replace (n <? 0) with false by lia.
  assert (H : forall k t, String.length (PyStr.take k t) = Nat.min k (String.length t)).
  { induction k as [|k IH]; intros [|c t]; simpl; auto. }
  rewrite H. lia.
Qed.

(** ** The schema of the resume details *)

Lemma for_each_cons {A B} (f : A -> outcome B) x l :
  tasks.for_each f (x :: l)
  = tasks.obind (f x) (fun y =>
      tasks.obind (tasks.for_each f l) (fun ys => Return (y :: ys))).
Proof. reflexivity. Qed.

Lemma for_each_fmap {A B} (f : A -> outcome B) (g : B -> A) (l : list B) :
  (forall x, f (g x) = Return x) -> tasks.for_each f (g <$> l) = Return l.
Proof.
  intros H. induction l as [|x l IH]; [reflexivity|].
  rewrite fmap_cons, for_each_cons, H, IH. reflexivity.
Qed.

Lemma as_WorkExperience_dict x : tasks.as_WorkExperience (dict_of_WorkExperience x) = Return x.
Proof. destruct x. reflexivity. Qed.

Lemma as_Education_dict x : tasks.as_Education (dict_of_Education x) = Return x.
Proof. destruct x. reflexivity. Qed.

Lemma field_missing k d :
  dict_get k d = None -> exists e, tasks.field k d = Raise e.
Proof. intros H. unfold tasks.field. rewrite H. eauto. Qed.

(** X14: the validation of [ResumeDetails] accepts exactly what the three
    models declare.  The dict of any record (skills a list of strings,
    work experiences with title, company and duration, educations with
    degree and institution) validates to that same record; an argument
    that is not a dict, or a dict that lacks one of the three fields, is
    refused with an exception, never with a partly filled record. *)
Theorem ResumeDetails_validation (r : ResumeDetails) :
  tasks.make_ResumeDetails (dict_of_ResumeDetails r) = Return r
  /\ (forall v, is_dict v = false -> exists e, tasks.make_ResumeDetails v = Raise e)
  /\ (forall d,
        dict_get "skills" d = None \/ dict_get "work_experience" d = None
        \/ dict_get "education" d = None ->
        exists e, tasks.make_ResumeDetails (VDict d) = Raise e).
Proof.
  split; [|split].
  - destruct r as [sk we ed]. unfold dict_of_ResumeDetails, tasks.make_ResumeDetails.
    simpl. unfold tasks.as_list.
    rewrite (for_each_fmap tasks.as_str VStr sk) by reflexivity. simpl.
    rewrite (for_each_fmap _ _ we as_WorkExperience_dict). simpl.
    rewrite (for_each_fmap _ _ ed as_Education_dict). reflexivity.
  - intros v Hv. destruct v; try discriminate Hv; simpl; eauto.
  - intros d H. unfold tasks.make_ResumeDetails, tasks.field.
    destruct (dict_get "skills" d) as [s|] eqn:Hs; simpl; [|eauto].
    destruct (tasks.as_list tasks.as_str s) as [sk|e]; simpl; [|eauto].
    destruct (dict_get "work_experience" d) as [x|] eqn:Hw; simpl; [|eauto].
    destruct (tasks.as_list tasks.as_WorkExperience x) as [we|e]; simpl; [|eauto].
    destruct (dict_get "education" d) as [y|] eqn:He; simpl; [|eauto].
    destruct H as [H | [H | H]]; discriminate H.
Qed.

(** Undeclared keys are ignored. *)
Example extra_keys_are_ignored :
  tasks.make_ResumeDetails
    (VDict [("name", VStr "Jane"); ("skills", VList [VStr "Go"]);
            ("work_experience", VList []); ("education", VList []);
            ("hobbies", VList [VStr "chess"])])
  = Return {| skills := ["Go"]; work_experience := []; education := [] |}.
Proof. reflexivity. Qed.

(** ** The shape of the point ids *)

Lemma testbit_small c n : 0 <= c -> Z.log2 c < n -> Z.testbit c n = false.
Proof. intros. apply Z.bits_above_log2; assumption. Qed.

Lemma below_pow2 a k :
  0 <= a -> 0 <= k -> (forall n, k <= n -> Z.testbit a n = false) -> a < 2 ^ k.
Proof.
  intros Ha Hk Hbits. destruct (Z.lt_ge_cases a (2 ^ k)) as [H | H]; [exact H|].
  assert (Hpos : 0 < a) by (pose proof (Z.pow_pos_nonneg 2 k); lia).
  apply Z.log2_le_pow2 in H; [|exact Hpos].
  pose proof (Z.bit_log2 a Hpos) as Hb. rewrite Hbits in Hb by exact H. discriminate.
Qed.

Lemma be_bytes_range n : forall x, Forall (fun b => 0 <= b < 256) (SHA1.be_bytes n x).
Proof.
  induction n as [|n IH]; intros x; simpl; [constructor|].
  apply Forall_app. split; [apply IH|]. constructor; [|constructor].
  change 255 with (Z.ones 8). rewrite Z.land_ones by lia.
  apply Z.mod_pos_bound. reflexivity.
Qed.

Lemma be_bytes_length n : forall x, length (SHA1.be_bytes n x) = n.
Proof.
  induction n as [|n IH]; intros x; simpl; [reflexivity|].
  rewrite length_app, IH. simpl. lia.
Qed.

Lemma digest_range msg : Forall (fun b => 0 <= b < 256) (SHA1.digest msg).
Proof.
  unfold SHA1.digest.
  destruct (fold_left SHA1.compress _ SHA1.init) as [[[[h0 h1] h2] h3] h4].
  rewrite !Forall_app. repeat split; apply be_bytes_range.
Qed.

Lemma digest_length msg : length (SHA1.digest msg) = 20%nat.
Proof.
  unfold SHA1.digest.
  destruct (fold_left SHA1.compress _ SHA1.init) as [[[[h0 h1] h2] h3] h4].
  rewrite !length_app, !be_bytes_length. reflexivity.
Qed.

Lemma be_int_fold_bits bs : forall acc k,
  0 <= k -> 0 <= acc ->
  Forall (fun b => 0 <= b < 256) bs ->
  (forall n, k <= n -> Z.testbit acc n = false) ->
  0 <= fold_left (fun a b => Z.lor (Z.shiftl a 8) b) bs acc
  /\ forall n, k + 8 * Z.of_nat (length bs) <= n ->
               Z.testbit (fold_left (fun a b => Z.lor (Z.shiftl a 8) b) bs acc) n = false.
Proof.
  induction bs as [|b bs IH]; intros acc k Hk Hacc Hr Hbits; simpl.
  - split; [exact Hacc|]. intros n Hn. apply Hbits. lia.
  - inversion Hr as [|? ? Hb Hr']; subst.
    destruct (IH (Z.lor (Z.shiftl acc 8) b) (k + 8)) as [H0 H1]; try assumption; try lia.
    + apply Z.lor_nonneg. split; [apply Z.shiftl_nonneg; lia | lia].
    + intros n Hn. rewrite Z.lor_spec, Z.shiftl_spec by lia.
      rewrite Hbits by lia. simpl.
      destruct (Z.eq_dec b 0) as [-> | Hnz]; [apply Z.bits_0|].
      apply testbit_small; [lia|].
      assert (Z.log2 b < 8) by (apply Z.log2_lt_pow2; lia). lia.
    + split; [exact H0|]. intros n Hn. apply H1. lia.
Qed.

Lemma be_int_bits bs :
  Forall (fun b => 0 <= b < 256) bs ->
  0 <= SHA1.be_int bs
  /\ forall n, 8 * Z.of_nat (length bs) <= n -> Z.testbit (SHA1.be_int bs) n = false.
Proof.
  intros Hr. unfold SHA1.be_int.
  destruct (be_int_fold_bits bs 0 0) as [H0 H1]; try lia; try assumption.
  - intros n _. apply Z.bits_0.
  - split; [exact H0|]. intros n Hn. apply H1. lia.
Qed.

(** The bits of a version-5 UUID, in terms of the bits of the hash. *)
Lemma UUID_testbit b n :
  0 <= n ->
  Z.testbit (uuid.UUID b 5) n
  = ((Z.testbit (SHA1.be_int b) n && Z.testbit (Z.lnot (Z.shiftl 0xc000 48)) n
      || Z.testbit (Z.shiftl 0x8000 48) n)
     && Z.testbit (Z.lnot (Z.shiftl 0xf000 64)) n)
    || Z.testbit (Z.shiftl 5 76) n.
Proof.
  intros Hn. unfold uuid.UUID.
  rewrite Z.lor_spec, Z.land_spec, Z.lor_spec, Z.land_spec. reflexivity.
Qed.

Lemma UUID_fixed_bits b :
  Z.testbit (uuid.UUID b 5) 76 = true /\ Z.testbit (uuid.UUID b 5) 77 = false
  /\ Z.testbit (uuid.UUID b 5) 78 = true /\ Z.testbit (uuid.UUID b 5) 79 = false
  /\ Z.testbit (uuid.UUID b 5) 62 = false /\ Z.testbit (uuid.UUID b 5) 63 = true.
Proof.
  repeat split; rewrite UUID_testbit by lia;
    match goal with
    | |- context [Z.testbit (SHA1.be_int b) ?k] =>
        generalize (Z.testbit (SHA1.be_int b) k)
    end; intros x; vm_compute; destruct x; reflexivity.
Qed.

Lemma UUID_range b :
  Forall (fun x => 0 <= x < 256) b -> (length b <= 16)%nat ->
  0 <= uuid.UUID b 5 < 2 ^ 128.
Proof.
  intros Hr Hl. destruct (be_int_bits b Hr) as [H0 Hbits].
  assert (Hnn : 0 <= uuid.UUID b 5).
  { unfold uuid.UUID. apply Z.lor_nonneg. split; [|vm_compute; discriminate].
    apply Z.land_nonneg. left. apply Z.lor_nonneg. split; [|vm_compute; discriminate].
    apply Z.land_nonneg. left. exact H0. }
  split; [exact Hnn|]. apply below_pow2; [exact Hnn | lia |].
  intros n Hn. rewrite UUID_testbit by lia.
  rewrite Hbits by lia. simpl.
  assert (H1 : Z.testbit (Z.shiftl 0x8000 48) n = false).
  { apply testbit_small; [vm_compute; discriminate|].
    change (Z.log2 (Z.shiftl 0x8000 48)) with 63. lia. }
  rewrite H1. simpl. apply testbit_small; [vm_compute; discriminate|].
  change (Z.log2 (Z.shiftl 5 76)) with 78. lia.
Qed.

Lemma nibble_bits y v :
  0 <= v < 16 ->
  (forall n, 0 <= n < 4 -> Z.testbit y n = Z.testbit v n) ->
  Z.land y 15 = v.
Proof.
  intros Hv Hb. apply Z.bits_inj'. intros n Hn. rewrite Z.land_spec.
  destruct (Z.lt_ge_cases n 4) as [Hlt | Hge].
  - rewrite Hb by lia.
    assert (H15 : Z.testbit 15 n = true).
    { assert (Hc : n = 0 \/ n = 1 \/ n = 2 \/ n = 3) by lia.
      destruct Hc as [-> | [-> | [-> | ->]]]; reflexivity. }
    rewrite H15. apply Bool.andb_true_r.
  - rewrite (testbit_small 15 n) by (try (vm_compute; discriminate); change (Z.log2 15) with 3; lia).
    rewrite Bool.andb_false_r. symmetry.
    destruct (Z.eq_dec v 0) as [-> | Hnz]; [apply Z.bits_0|].
    apply testbit_small; [lia|].
    assert (Z.log2 v < 4) by (apply Z.log2_lt_pow2; lia). lia.
Qed.

Lemma UUID_version_nibble b : Z.land (Z.shiftr (uuid.UUID b 5) 76) 15 = 5.
Proof.
  destruct (UUID_fixed_bits b) as (B76 & B77 & B78 & B79 & _).
  apply nibble_bits; [lia|]. intros n Hn. rewrite Z.shiftr_spec by lia.
  assert (Hc : n = 0 \/ n = 1 \/ n = 2 \/ n = 3) by lia.
  destruct Hc as [-> | [-> | [-> | ->]]].
  - change (0 + 76) with 76. rewrite B76. reflexivity.
  - change (1 + 76) with 77. rewrite B77. reflexivity.
  - change (2 + 76) with 78. rewrite B78. reflexivity.
  - change (3 + 76) with 79. rewrite B79. reflexivity.
Qed.

Lemma UUID_variant_nibble b :
  let v := Z.land (Z.shiftr (uuid.UUID b 5) 60) 15 in
  v = 8 \/ v = 9 \/ v = 10 \/ v = 11.
Proof.
  destruct (UUID_fixed_bits b) as (_ & _ & _ & _ & B62 & B63). simpl.
  set (U := uuid.UUID b 5) in *.
  assert (H : forall v, 0 <= v < 16 ->
              Z.testbit v 0 = Z.testbit U 60 -> Z.testbit v 1 = Z.testbit U 61 ->
              Z.testbit v 2 = false -> Z.testbit v 3 = true ->
              Z.land (Z.shiftr U 60) 15 = v).
  { intros v Hv H0 H1 H2 H3. apply nibble_bits; [exact Hv|].
    intros n Hn. rewrite Z.shiftr_spec by lia.
    assert (Hc : n = 0 \/ n = 1 \/ n = 2 \/ n = 3) by lia.
    destruct Hc as [-> | [-> | [-> | ->]]].
    - change (0 + 60) with 60. congruence.
    - change (1 + 60) with 61. congruence.
    - change (2 + 60) with 62. rewrite B62, H2. reflexivity.
    - change (3 + 60) with 63. rewrite B63, H3. reflexivity. }
  destruct (Z.testbit U 60) eqn:E0, (Z.testbit U 61) eqn:E1.
  - right; right; right. apply H; try lia; reflexivity.
  - right; left. apply H; try lia; reflexivity.
  - right; right; left. apply H; try lia; reflexivity.
  - left. apply H; try lia; reflexivity.
Qed.

Lemma is_hex_digit y : is_hex (uuid.hex_digit (Z.land y 15)) = true.
Proof.
  assert (H : 0 <= Z.land y 15 < 16).
  { change 15 with (Z.ones 4). rewrite Z.land_ones by lia.
    apply Z.mod_pos_bound. reflexivity. }
  assert (Hk : (Z.to_nat (Z.land y 15) < 16)%nat) by lia.
  rewrite <- (Z2Nat.id (Z.land y 15)) by lia.
  generalize dependent (Z.to_nat (Z.land y 15)). intros k Hk.
  do 16 (destruct k as [|k]; [reflexivity|]). lia.
Qed.

Lemma string_of_list_ascii_app l1 l2 :
  String.string_of_list_ascii (l1 ++ l2)%list
  = String.string_of_list_ascii l1 +:+ String.string_of_list_ascii l2.
Proof. induction l1 as [|c l1 IH]; simpl; [reflexivity|]. rewrite IH. reflexivity. Qed.

Lemma digit_at_S i k : digit_at i (S k) = digit_at (Z.shiftr i 4) k.
Proof.
  unfold digit_at. rewrite Z.shiftr_shiftr by lia. do 3 f_equal. lia.
Qed.

(** ['%0nx' % i], digit by digit. *)
Lemma hex_digits n : forall i,
  uuid.hex n i = String.string_of_list_ascii (map (digit_at i) (rev (seq 0 n))).
Proof.
  induction n as [|n IH]; intros i; [reflexivity|].
  cbn [uuid.hex]. rewrite IH.
  change (seq 0 (S n)) with (0%nat :: seq 1 n).
  rewrite <- seq_shift. cbn [rev]. rewrite map_app, string_of_list_ascii_app.
  rewrite <- map_rev, map_map.
  f_equal. f_equal. apply map_ext. intros k. symmetry. apply digit_at_S.
Qed.

Lemma is_hex_digit_at i k : is_hex (digit_at i k) = true.
Proof. apply is_hex_digit. Qed.

Lemma UUID_str_well_formed b : well_formed_uuid5 (uuid.str (uuid.UUID b 5)).
Proof.
  set (U := uuid.UUID b 5).
  assert (Hver : digit_at U 19 = Ascii.ascii_of_nat 53).
  { unfold digit_at. change (4 * Z.of_nat 19) with 76. unfold U.
    rewrite UUID_version_nibble. reflexivity. }
  assert (Hvar : In (digit_at U 15) (String.list_ascii_of_string "89ab")).
  { unfold digit_at. change (4 * Z.of_nat 15) with 60. unfold U.
    destruct (UUID_variant_nibble b) as [H | [H | [H | H]]]; simpl in H; rewrite H;
      simpl; auto. }
  exists (String.string_of_list_ascii (map (digit_at U) [31; 30; 29; 28; 27; 26; 25; 24]%nat)),
         (String.string_of_list_ascii (map (digit_at U) [23; 22; 21; 20]%nat)),
         (String.string_of_list_ascii (map (digit_at U) [18; 17; 16]%nat)),
         (digit_at U 15),
         (String.string_of_list_ascii (map (digit_at U) [14; 13; 12]%nat)),
         (String.string_of_list_ascii
            (map (digit_at U) [11; 10; 9; 8; 7; 6; 5; 4; 3; 2; 1; 0]%nat)).
  split; [|split; [|split; [|split; [|split; [|split; [|split]]]]]];
    try reflexivity; try exact Hvar.
  - unfold uuid.str. rewrite hex_digits.
    replace (rev (seq 0 32))
      with [31; 30; 29; 28; 27; 26; 25; 24; 23; 22; 21; 20; 19; 18; 17; 16; 15; 14; 13;
            12; 11; 10; 9; 8; 7; 6; 5; 4; 3; 2; 1; 0]%nat by reflexivity.
    cbv -[digit_at U Ascii.ascii_of_nat]. rewrite Hver. reflexivity.
  - cbv -[digit_at is_hex U]. rewrite !is_hex_digit_at. reflexivity.
Qed.

(** X15: every point id is a well-formed version-5 UUID.  For every
    document id the derived id is a 128-bit number whose text has 36
    characters: lowercase hex digits in groups of 8, 4, 4, 4 and 12 with
    hyphens between them, the version digit 5 and a variant digit among 8,
    9, a and b; the hash it is cut from has 20 bytes. *)
Theorem point_id_is_uuid5 (document_id : string) :
  well_formed_uuid5 (tasks.point_id_of document_id)
  /\ String.length (tasks.point_id_of document_id) = 36%nat
  /\ 0 <= uuid.uuid5 uuid.NAMESPACE_DNS document_id < 2 ^ 128
  /\ length (SHA1.digest (uuid.NAMESPACE_DNS ++ uuid.bytes_of document_id)%list) = 20%nat.
Proof.
  assert (Hwf : well_formed_uuid5 (tasks.point_id_of document_id))
    by apply UUID_str_well_formed.
  split; [exact Hwf|]. split; [|split].
  - unfold tasks.point_id_of, uuid.str. rewrite hex_digits. reflexivity.
  - unfold uuid.uuid5. apply UUID_range.
    + apply Forall_take, digest_range.
    + rewrite length_take. lia.
  - apply digest_length.
Qed.

(** ** Start-up under a failing store, and the size of the prompt *)

(** X16: the start-up block never raises, and a store failure leaves the
    process running on whatever the store holds.  If the store refuses to
    recreate "jobs", nothing is changed and "profiles" is not even
    attempted; if it accepts "jobs" but refuses "profiles", only "jobs"
    has been emptied; if it accepts both, both have been emptied. *)
Theorem setup_collections_failure_modes (env : Env) (w : World) :
  tasks.setup_collections env w
  = (match env_qdrant_fault env (OpRecreate "jobs"),
           env_qdrant_fault env (OpRecreate "profiles") with
     | Some _, _ => w
     | None, Some _ => recreated "jobs" w
     | None, None => recreated "profiles" (recreated "jobs" w)
     end,
     Return tt).
Proof.
  unfold tasks.setup_collections, Qdrant.recreate_collection, Qdrant.fault, recreated.
  run.
  destruct (env_qdrant_fault env (OpRecreate "jobs")) as [e1|]; simpl; [reflexivity|].
  destruct (env_qdrant_fault env (OpRecreate "profiles")) as [e2|]; reflexivity.
Qed.






